(** * anything2anything: classification, dispatch and backend invokers

    A shallow embedding of [src/categories.py], [src/converters.py] and
    [src/dispatcher.py].

    Modelling conventions.
    - A Python [str] is a [string]; the development covers ASCII text, on
      which [str.lower] only moves the letters A-Z.
    - A [pathlib.Path] is a POSIX pure path: a root and the list of its
      components.  [name], [suffix], [stem] and [parent] follow pathlib's
      definitions, with the suffix rule of Python 3.13 and earlier:
      [name[i:]] for [i = name.rfind(".")] when [0 < i < len(name) - 1].
    - The file system is a finite map from paths to entries, the external
      world (which tools resolve on the search path, what a spawned process
      does) is a parameter of the section holding the invokers, and every
      observable action is appended to a trace.
    - A function that can raise returns a sum inside a state-passing monad. *)

From Stdlib Require Import Ascii.
From Stdlib Require String.
From Stdlib Require Import ZArith Lia Sorted Permutation.
From stdpp Require Import base option list strings gmap fin_maps pretty.


(** ** Python string primitives *)

Module Str.

Definition dot : ascii := "."%char.
Definition nl : string := String "010"%char EmptyString.

(** [c.lower()] on one ASCII character. *)
Definition lower_char (c : ascii) : ascii :=
  let n := nat_of_ascii c in
  if (65 <=? n)%nat && (n <=? 90)%nat then ascii_of_nat (n + 32) else c.

(** [s.lower()] *)
Fixpoint lower (s : string) : string :=
  match s with
  | EmptyString => EmptyString
  | String c r => String (lower_char c) (lower r)
  end.

(** [s.lstrip(".")]: every leading dot goes. *)
Fixpoint lstrip_dot (s : string) : string :=
  match s with
  | String c r => if Ascii.eqb c dot then lstrip_dot r else s
  | EmptyString => EmptyString
  end.

(** Removal of at most one leading dot (used only to state a claim). *)
Definition strip_one_dot (s : string) : string :=
  match s with
  | String c r => if Ascii.eqb c dot then r else s
  | EmptyString => EmptyString
  end.

(** [sep.join(l)] *)
Fixpoint join (sep : string) (l : list string) : string :=
  match l with
  | [] => EmptyString
  | [x] => x
  | x :: r => x +:+ sep +:+ join sep r
  end.

(** [s.rfind(".")], as an index from the left. *)
Fixpoint rfind_dot (s : string) : option nat :=
  match s with
  | EmptyString => None
  | String c r =>
      match rfind_dot r with
      | Some i => Some (S i)
      | None => if Ascii.eqb c dot then Some 0%nat else None
      end
  end.

(** [s[:i]] and [s[i:]] *)
Fixpoint take (i : nat) (s : string) : string :=
  match i, s with
  | S j, String c r => String c (take j r)
  | _, _ => EmptyString
  end.

Fixpoint drop (i : nat) (s : string) : string :=
  match i, s with
  | S j, String _ r => drop j r
  | _, _ => s
  end.

(** [s.startswith(p)] *)
Definition startswith (p s : string) : bool := String.prefix p s.

(** [p in s] *)
Fixpoint contains (p s : string) : bool :=
  String.prefix p s ||
  match s with
  | EmptyString => false
  | String _ r => contains p r
  end.

(** [s.split("/")] *)
Fixpoint split_slash (s : string) : list string :=
  match s with
  | EmptyString => [EmptyString]
  | String c r =>
      if Ascii.eqb c "/"%char then EmptyString :: split_slash r
      else match split_slash r with
           | h :: t => String c h :: t
           | [] => [String c EmptyString]
           end
  end.

(** Python's order on ASCII strings: lexicographic on code points. *)
Definition leb (a b : string) : bool := String.leb a b.

Fixpoint insert_sorted (x : string) (l : list string) : list string :=
  match l with
  | [] => [x]
  | y :: r => if leb x y then x :: l else y :: insert_sorted x r
  end.

(** [sorted(l)] *)
Definition sorted (l : list string) : list string :=
  foldr insert_sorted [] l.

(** [set(l)] as far as [sorted] can see it: the distinct elements. *)
Definition distinct (l : list string) : list string := remove_dups l.

End Str.

(** ** Exceptions *)

(** The exception classes the three modules raise, each with its message.
    [ToolNotFoundError] and [CategoryMismatchError] are subclasses of
    [ConversionError]; [OSError] stands for a failing [os.rename]. *)
Inductive exn : Type :=
  | FileNotFoundError (msg : string)
  | ValueError (msg : string)
  | ConversionError (msg : string)
  | ToolNotFoundError (msg : string)
  | CategoryMismatchError (msg : string)
  | OSError (msg : string).

(** [str(e)] *)
Definition exn_msg (e : exn) : string :=
  match e with
  | FileNotFoundError m | ValueError m | ConversionError m
  | ToolNotFoundError m | CategoryMismatchError m | OSError m => m
  end.

(** ** pathlib: pure POSIX paths *)

Record Path : Type := mkPath { root : string; comps : list string }.

#[global] Instance Path_eq_dec : EqDecision Path.
Proof. solve_decision. Defined.

#[global] Instance Path_countable : Countable Path.
Proof.
  apply (inj_countable' (fun p => (root p, comps p))
                        (fun '(r, c) => mkPath r c)).
  intros []. reflexivity.
Defined.

Module PathLib.

(** [posixpath.splitroot]: one leading slash, or exactly two. *)
Definition root_of (s : string) : string :=
  match s with
  | String "/" (String "/" (String "/" _)) => "/"
  | String "/" (String "/" _) => "//"
  | String "/" _ => "/"
  | _ => ""
  end.

Definition keep_comp (c : string) : bool :=
  negb (String.eqb c "") && negb (String.eqb c ".").

(** [Path(s)] *)
Definition of_str (s : string) : Path :=
  mkPath (root_of s) (List.filter keep_comp (Str.split_slash s)).

(** [str(p)] *)
Definition to_str (p : Path) : string :=
  match root p, comps p with
  | EmptyString, [] => "."
  | r, c => r +:+ Str.join "/" c
  end.

(** [p.name] *)
Definition name (p : Path) : string := default "" (last (comps p)).

(** Position of the dot that starts the suffix, when the name has one:
    [0 < i < len(name) - 1]. *)
Definition suffix_at (n : string) : option nat :=
  match Str.rfind_dot n with
  | Some i =>
      if (0 <? i)%nat && (i <? String.length n - 1)%nat then Some i else None
  | None => None
  end.

(** [p.suffix] *)
Definition suffix (p : Path) : string :=
  match suffix_at (name p) with
  | Some i => Str.drop i (name p)
  | None => ""
  end.

(** [p.stem] *)
Definition stem (p : Path) : string :=
  match suffix_at (name p) with
  | Some i => Str.take i (name p)
  | None => name p
  end.

(** [p.parent] *)
Definition parent (p : Path) : Path :=
  match comps p with
  | [] => p
  | _ => mkPath (root p) (removelast (comps p))
  end.

(** [p / s] *)
Definition truediv (p : Path) (s : string) : Path :=
  let q := of_str s in
  match root q with
  | EmptyString => mkPath (root p) (comps p ++ comps q)
  | _ => q
  end.

End PathLib.

(** ** categories.py *)

Inductive Category : Type :=
  | AUDIO | IMAGE | VIDEO | SPREADSHEET | PRESENTATION | DOCUMENT.

#[global] Instance Category_eq_dec : EqDecision Category.
Proof. solve_decision. Defined.

(** [c.value] *)
Definition value (c : Category) : string :=
  match c with
  | AUDIO => "audio"
  | IMAGE => "image"
  | VIDEO => "video"
  | SPREADSHEET => "spreadsheet"
  | PRESENTATION => "presentation"
  | DOCUMENT => "document"
  end.

(** A dict literal with distinct keys, in source order. *)
Definition EXTENSION_TO_CATEGORY : list (string * Category) :=
  [ ("mp3", AUDIO); ("wav", AUDIO); ("m4a", AUDIO);
    ("heic", IMAGE); ("jpg", IMAGE); ("jpeg", IMAGE); ("gif", IMAGE);
    ("icns", IMAGE); ("webp", IMAGE); ("avif", IMAGE);
    ("mov", VIDEO); ("mp4", VIDEO);
    ("csv", SPREADSHEET); ("ods", SPREADSHEET); ("xlsx", SPREADSHEET);
    ("xls", SPREADSHEET); ("xlsm", SPREADSHEET);
    ("odp", PRESENTATION); ("ppt", PRESENTATION); ("pptx", PRESENTATION);
    ("docx", DOCUMENT); ("doc", DOCUMENT); ("odt", DOCUMENT);
    ("txt", DOCUMENT); ("rtf", DOCUMENT) ].

Definition EXTENSION_ALIASES : list (string * string) :=
  [ ("jpeg", "jpg") ].

(** [d.get(k)] *)
Fixpoint dict_get {V : Type} (d : list (string * V)) (k : string) : option V :=
  match d with
  | [] => None
  | (k', v) :: r => if String.eqb k' k then Some v else dict_get r k
  end.

(** [d.keys()] *)
Definition dict_keys {V : Type} (d : list (string * V)) : list string :=
  map fst d.

Definition normalize_extension (ext : string) : string :=
  let ext := Str.lstrip_dot ext in
  let ext := Str.lower ext in
  let ext := default ext (dict_get EXTENSION_ALIASES ext) in
  ext.

Definition get_extension (path : Path) : string :=
  let ext := PathLib.suffix path in
  normalize_extension ext.

(** The text after [Supported formats: ]. *)
Definition supported_formats_text : string :=
  Str.join ", " (Str.sorted (Str.distinct (dict_keys EXTENSION_TO_CATEGORY))).

Definition unsupported_msg (ext : string) : string :=
  let ext_with_dot :=
    if negb (String.eqb ext "") then "." +:+ ext else "(no extension)" in
  "Unsupported file format: " +:+ ext_with_dot +:+ Str.nl +:+
  "Supported formats: " +:+ supported_formats_text.

Definition get_category (path : Path) : exn + Category :=
  let ext := get_extension path in
  match dict_get EXTENSION_TO_CATEGORY ext with
  | None => inl (ValueError (unsupported_msg ext))
  | Some category => inr category
  end.

(** [get_category] on a [str] argument: [Path(path)] first. *)
Definition get_category_str (path : string) : exn + Category :=
  get_category (PathLib.of_str path).

Definition get_supported_extensions (category : option Category) : list string :=
  match category with
  | None => Str.sorted (Str.distinct (dict_keys EXTENSION_TO_CATEGORY))
  | Some c =>
      Str.sorted
        (dict_keys (List.filter (fun kv => bool_decide (snd kv = c))
                                EXTENSION_TO_CATEGORY))
  end.

(** ** The world the program runs in *)

(** What a path of the file system holds. *)
Inductive Entry : Type :=
  | File (content : string)
  | Dir.

(** What the program does that can be observed from outside, in order. *)
Inductive Event : Type :=
  | EvWhich (tool : string)
  | EvPrint (line : string)
  | EvRun (cmd : list string)
  | EvRename (src dst : Path).

Record World : Type := mkWorld { fs : gmap Path Entry; trace : list Event }.

(** The outcome of [subprocess.run(cmd, capture_output=True, text=True,
    check=False)]: the executable could not be started, or the process ran
    to its end and left the file system as [fs_after]. *)
Inductive Spawn : Type :=
  | SpawnFailed
  | Exited (returncode : Z) (stdout stderr : string) (fs_after : gmap Path Entry).

Record CompletedProcess : Type :=
  mkCompleted { returncode : Z; stdout : string; stderr : string }.

(** ** A state and exception monad *)

Definition M (A : Type) : Type := World -> (exn + A) * World.

Definition ret {A : Type} (a : A) : M A := fun w => (inr a, w).

Definition raise {A : Type} (e : exn) : M A := fun w => (inl e, w).

Definition bind {A B : Type} (m : M A) (k : A -> M B) : M B :=
  fun w => match m w with
           | (inr a, w') => k a w'
           | (inl e, w') => (inl e, w')
           end.

Notation "'let*' x ':=' m 'in' k" := (bind m (fun x => k))
  (at level 10, x name, m at level 100, k at level 200).
Notation "'run' m 'then' k" := (bind m (fun _ => k))
  (at level 10, m at level 100, k at level 200).

(** [try: m  except <classes selected by h>: handler] *)
Definition try_except {A : Type} (m : M A) (h : exn -> option (M A)) : M A :=
  fun w => match m w with
           | (inr a, w') => (inr a, w')
           | (inl e, w') =>
               match h e with
               | Some handler => handler w'
               | None => (inl e, w')
               end
           end.

(** A function that raises or returns without touching the world. *)
Definition lift {A : Type} (r : exn + A) : M A := fun w => (r, w).

Definition emit (e : Event) : M unit :=
  fun w => (inr tt, mkWorld (fs w) (trace w ++ [e])).

(** [print(line)] *)
Definition print (line : string) : M unit := emit (EvPrint line).

(** [if verbose: print(line)] *)
Definition print_if (verbose : bool) (line : string) : M unit :=
  if verbose then print line else ret tt.

(** [p.exists()] *)
Definition exists_ (p : Path) : M bool :=
  fun w => (inr (bool_decide (is_Some (fs w !! p))), w).

(** [src.rename(dst)], POSIX [rename(2)] on the entry at [src]: a missing
    source is an error, a regular file silently replaces a regular file and
    cannot replace a directory, a directory cannot replace a regular file.
    (The entries below a renamed directory are not re-keyed; no caller
    renames a directory.) *)
Definition rename (src dst : Path) : M unit :=
  fun w =>
    let arrow :=
      "'" +:+ PathLib.to_str src +:+ "' -> '" +:+ PathLib.to_str dst +:+ "'" in
    match fs w !! src, fs w !! dst with
    | None, _ =>
        (inl (FileNotFoundError
                ("[Errno 2] No such file or directory: " +:+ arrow)), w)
    | Some (File _), Some Dir =>
        (inl (OSError ("[Errno 21] Is a directory: " +:+ arrow)), w)
    | Some Dir, Some (File _) =>
        (inl (OSError ("[Errno 20] Not a directory: " +:+ arrow)), w)
    | Some e, _ =>
        (inr tt, mkWorld (<[dst := e]> (delete src (fs w)))
                         (trace w ++ [EvRename src dst]))
    end.

(** ** converters.py and dispatcher.py *)

Section Program.

(** [shutil.which(tool) is not None] *)
Variable on_path : string -> bool.

(** The operating system starting [cmd] on the current file system. *)
Variable spawn : list string -> gmap Path Entry -> Spawn.

Definition check_tool_available (tool_name : string) : M bool :=
  run emit (EvWhich tool_name) then
  ret (on_path tool_name).

(** [subprocess.run]; a missing executable raises [FileNotFoundError]. *)
Definition subprocess_run (cmd : list string) : M CompletedProcess :=
  fun w =>
    let w' := mkWorld (fs w) (trace w ++ [EvRun cmd]) in
    match spawn cmd (fs w) with
    | SpawnFailed =>
        (inl (FileNotFoundError
                ("[Errno 2] No such file or directory: '" +:+
                 default "" (head cmd) +:+ "'")), w')
    | Exited rc out err fs' =>
        (inr (mkCompleted rc out err), mkWorld fs' (trace w'))
    end.

Definition truthy (s : string) : bool := negb (String.eqb s "").

Definition run_command (cmd : list string) (verbose : bool)
                       (tool_name : string) : M unit :=
  run print_if verbose ("Running: " +:+ Str.join " " cmd) then
  let* result :=
    try_except (subprocess_run cmd)
      (fun e => match e with
                | FileNotFoundError _ =>
                    Some (raise (ToolNotFoundError
                      (tool_name +:+
                       " not found in PATH. Please install it and ensure it's available.")))
                | _ => None
                end) in
  if negb (returncode result =? 0)%Z then
    let error_msg :=
      tool_name +:+ " failed with exit code " +:+ pretty (returncode result) in
    let error_msg :=
      if verbose || truthy (stderr result)
      then error_msg +:+ Str.nl +:+ "Error output:" +:+ Str.nl +:+ stderr result
      else error_msg in
    let error_msg :=
      if verbose && truthy (stdout result)
      then error_msg +:+ Str.nl +:+ "Standard output:" +:+ Str.nl +:+ stdout result
      else error_msg in
    raise (ConversionError error_msg)
  else ret tt.

Definition convert_audio (input_path output_path : Path) (verbose : bool) : M unit :=
  let* available := check_tool_available "ffmpeg" in
  if negb available then
    raise (ToolNotFoundError
             "FFmpeg is required for audio conversion. Please install it.")
  else
  let ext := Str.lstrip_dot (Str.lower (PathLib.suffix output_path)) in
  let cmd := ["ffmpeg"; "-i"; PathLib.to_str input_path; "-y"] in
  let* cmd :=
    if String.eqb ext "mp3" then
      ret (cmd ++ ["-codec:a"; "libmp3lame"; "-q:a"; "2"])
    else if String.eqb ext "wav" then
      ret (cmd ++ ["-codec:a"; "pcm_s16le"])
    else if String.eqb ext "m4a" then
      ret (cmd ++ ["-codec:a"; "aac"; "-b:a"; "192k"])
    else
      raise (ConversionError ("Unsupported audio output format: " +:+ ext)) in
  let cmd := cmd ++ [PathLib.to_str output_path] in
  run_command cmd verbose "FFmpeg".

Definition convert_video (input_path output_path : Path) (verbose : bool) : M unit :=
  let* available := check_tool_available "ffmpeg" in
  if negb available then
    raise (ToolNotFoundError
             "FFmpeg is required for video conversion. Please install it.")
  else
  let ext := Str.lstrip_dot (Str.lower (PathLib.suffix output_path)) in
  let cmd := ["ffmpeg"; "-i"; PathLib.to_str input_path; "-y"] in
  let* cmd :=
    if String.eqb ext "mp4" then
      ret (cmd ++ ["-codec:v"; "libx264"; "-codec:a"; "aac";
                   "-movflags"; "+faststart"])
    else if String.eqb ext "mov" then
      ret (cmd ++ ["-codec:v"; "libx264"; "-codec:a"; "aac"])
    else
      raise (ConversionError ("Unsupported video output format: " +:+ ext)) in
  let cmd := cmd ++ [PathLib.to_str output_path] in
  run_command cmd verbose "FFmpeg".

Definition convert_image (input_path output_path : Path) (verbose : bool) : M unit :=
  let* available := check_tool_available "magick" in
  if negb available then
    raise (ToolNotFoundError
             "ImageMagick is required for image conversion. Please install it.")
  else
  let cmd := ["magick"; PathLib.to_str input_path; PathLib.to_str output_path] in
  run_command cmd verbose "ImageMagick".

(** The three values [convert_office] derives from its arguments
    ([output_basename] is assigned in the source and never read). *)
Definition office_target_ext (output_path : Path) : string :=
  Str.lstrip_dot (PathLib.suffix output_path).

Definition office_cmd (input_path output_path : Path) : list string :=
  let target_ext := office_target_ext output_path in
  let output_dir := PathLib.parent output_path in
  [ "soffice"; "--headless"; "--convert-to"; target_ext;
    "--outdir"; PathLib.to_str output_dir; PathLib.to_str input_path ].

Definition office_expected_output (input_path output_path : Path) : Path :=
  let target_ext := office_target_ext output_path in
  let output_dir := PathLib.parent output_path in
  PathLib.truediv output_dir (PathLib.stem input_path +:+ "." +:+ target_ext).

Definition convert_office (input_path output_path : Path) (verbose : bool) : M unit :=
  let* available := check_tool_available "soffice" in
  if negb available then
    raise (ToolNotFoundError
             "LibreOffice is required for office document conversion. Please install it.")
  else
  let cmd := office_cmd input_path output_path in
  run run_command cmd verbose "LibreOffice" then
  let expected_output := office_expected_output input_path output_path in
  let* present := exists_ expected_output in
  if negb present then
    raise (ConversionError
             ("LibreOffice did not produce expected output file: " +:+
              PathLib.to_str expected_output))
  else
  if negb (bool_decide (expected_output = output_path)) then
    run print_if verbose
          ("Renaming " +:+ PathLib.to_str expected_output +:+ " to " +:+
           PathLib.to_str output_path) then
    rename expected_output output_path
  else ret tt.

Definition mismatch_msg (input_category output_category : Category) : string :=
  "Cannot convert between different categories." +:+ Str.nl +:+
  "Input category: " +:+ value input_category +:+ Str.nl +:+
  "Output category: " +:+ value output_category +:+ Str.nl +:+
  "Only conversions within the same category are supported.".

Definition no_converter_msg (c : Category) : string :=
  "No converter available for category: " +:+ value c.

(** [try: get_category(p)  except ValueError as e:
    raise ValueError(f"{qualifier}{e}")] *)
Definition classify (qualifier : string) (p : Path) : M Category :=
  try_except (lift (get_category p))
    (fun e => match e with
              | ValueError m => Some (raise (ValueError (qualifier +:+ m)))
              | _ => None
              end).

Definition convert_file (input_path output_path : Path) (verbose : bool) : M unit :=
  let* found := exists_ input_path in
  if negb found then
    raise (FileNotFoundError
             ("Input file not found: " +:+ PathLib.to_str input_path))
  else
  let* input_category := classify "Unsupported input format: " input_path in
  let* output_category := classify "Unsupported output format: " output_path in
  if negb (bool_decide (input_category = output_category)) then
    raise (CategoryMismatchError (mismatch_msg input_category output_category))
  else
  run print_if verbose
        ("Converting " +:+ value input_category +:+ ": " +:+
         PathLib.name input_path +:+ " -> " +:+ PathLib.name output_path) then
  if bool_decide (input_category = AUDIO) then
    convert_audio input_path output_path verbose
  else if bool_decide (input_category = VIDEO) then
    convert_video input_path output_path verbose
  else if bool_decide (input_category = IMAGE) then
    convert_image input_path output_path verbose
  else if bool_decide (input_category ∈ [DOCUMENT; SPREADSHEET; PRESENTATION]) then
    convert_office input_path output_path verbose
  else
    raise (ConversionError (no_converter_msg input_category)).

(** The invoker assigned to each category. *)
Definition invoker_of (c : Category) : Path -> Path -> bool -> M unit :=
  match c with
  | AUDIO => convert_audio
  | VIDEO => convert_video
  | IMAGE => convert_image
  | DOCUMENT | SPREADSHEET | PRESENTATION => convert_office
  end.

End Program.

(** ** Reading a trace *)

Definition is_which (e : Event) : bool :=
  match e with EvWhich _ => true | _ => false end.

(** The commands handed to [subprocess.run], in order. *)
Definition runs (t : list Event) : list (list string) :=
  omap (fun e => match e with EvRun c => Some c | _ => None end) t.

(** The tools looked up on the search path, in order. *)
Definition probes (t : list Event) : list string :=
  omap (fun e => match e with EvWhich n => Some n | _ => None end) t.

(** The renames performed, in order. *)
Definition renames (t : list Event) : list (Path * Path) :=
  omap (fun e => match e with EvRename a b => Some (a, b) | _ => None end) t.

(** ** A concrete world to run the program in *)

Module Demo.

(** Every tool resolves. *)
Definition all_tools (tool : string) : bool := true.

(** No tool resolves. *)
Definition no_tools (tool : string) : bool := false.

(** A headless office converter that behaves as documented: it writes
    [outdir/<input stem>.<target>] and exits with status 0.  Any other
    command exits with status 0 and changes nothing. *)
Definition soffice_like (cmd : list string) (f : gmap Path Entry) : Spawn :=
  match cmd with
  | [ "soffice"; "--headless"; "--convert-to"; ext; "--outdir"; dir; inp ] =>
      let produced :=
        PathLib.truediv (PathLib.of_str dir)
          (PathLib.stem (PathLib.of_str inp) +:+ "." +:+ ext) in
      Exited 0 "" "" (<[produced := File ("converted:" +:+ inp)]> f)
  | _ => Exited 0 "" "" f
  end.

Definition report_docx : Path := PathLib.of_str "/work/report.docx".
Definition report_odt : Path := PathLib.of_str "/work/report.odt".
Definition final_odt : Path := PathLib.of_str "/work/final.odt".
Definition song_mp3 : Path := PathLib.of_str "/work/song.mp3".
Definition photo_jpg : Path := PathLib.of_str "/work/photo.jpg".
Definition clip_mov : Path := PathLib.of_str "/work/clip.mov".
Definition clip_mp4 : Path := PathLib.of_str "/work/clip.mp4".
Definition readme : Path := PathLib.of_str "/work/README".
Definition upper_odt : Path := PathLib.of_str "/work/REPORT.ODT".

Definition fs0 : gmap Path Entry :=
  <[report_docx := File "docx bytes"]>
  (<[song_mp3 := File "mp3 bytes"]>
  (<[clip_mov := File "mov bytes"]>
  (<[readme := File "plain text"]>
  (<[PathLib.of_str "/work" := Dir]> ∅)))).

Definition w0 : World := mkWorld fs0 [].

Definition nowhere_mp3 : Path := PathLib.of_str "/nowhere/a.mp3".
Definition nowhere_wav : Path := PathLib.of_str "/nowhere/b.wav".
Definition w_empty : World := mkWorld ∅ [].

Definition song_flac : Path := PathLib.of_str "/work/song.flac".
Definition out_dir : Path := PathLib.of_str "/work/out.odt".


(** A world in which the requested output path is a directory. *)
Definition w_dir : World := mkWorld (<[out_dir := Dir]> fs0) [].

End Demo.

(** ** Vocabulary of the statements *)

(** [EXTENSION_ALIASES.get(ext, ext)] *)
Definition alias_of (ext : string) : string :=
  default ext (dict_get EXTENSION_ALIASES ext).

(** [normalize_extension] as the specification words it: remove one leading
    separator, lowercase, substitute a known alias. *)
Definition normalize_one_separator (ext : string) : string :=
  alias_of (Str.lower (Str.strip_one_dot ext)).

(** A string that does not begin with the separator. *)
Definition no_leading_dot (s : string) : Prop :=
  match s with
  | String c _ => Ascii.eqb c Str.dot = false
  | EmptyString => True
  end.

(** The order [sorted] sorts by. *)
Definition leb_rel (a b : string) : Prop := Str.leb a b = true.

(** How the error message shows the offending extension. *)
Definition shown_extension (ext : string) : string :=
  match ext with
  | EmptyString => "(no extension)"
  | _ => "." +:+ ext
  end.

(** The three backends of the dispatcher and what tells them apart. *)
Inductive Backend : Type := Media | Image | Office.

Definition backend_of (c : Category) : Backend :=
  match c with
  | AUDIO | VIDEO => Media
  | IMAGE => Image
  | DOCUMENT | SPREADSHEET | PRESENTATION => Office
  end.

(** The executable a backend looks up, and the name its messages use. *)
Definition binary_of (b : Backend) : string :=
  match b with Media => "ffmpeg" | Image => "magick" | Office => "soffice" end.

Definition label_of (b : Backend) : string :=
  match b with Media => "FFmpeg" | Image => "ImageMagick" | Office => "LibreOffice" end.

(** The world after the dispatcher's verbose line, if any. *)
Definition announced (verbose : bool) (c : Category) (i o : Path) (w : World) : World :=
  if verbose then
    mkWorld (fs w)
      (trace w ++ [EvPrint ("Converting " +:+ value c +:+ ": " +:+
                            PathLib.name i +:+ " -> " +:+ PathLib.name o)])
  else w.

(** [emits_only ok m]: whatever [m] does, it extends the trace, and only by
    events accepted by [ok]. *)
Definition emits_only {A : Type} (ok : Event -> bool) (m : M A) : Prop :=
  forall w, exists evs,
    trace (snd (m w)) = trace w ++ evs /\ forallb ok evs = true.

(** [raises_only P m]: every exception leaving [m] satisfies [P]. *)
Definition raises_only {A : Type} (P : exn -> Prop) (m : M A) : Prop :=
  forall w e w', m w = (inl e, w') -> P e.

(** An exception other than the dispatcher's own "no converter" error. *)
Definition not_no_converter (e : exn) : Prop :=
  forall c, e <> ConversionError (no_converter_msg c).

(** A message that does not begin like the "no converter" message. *)
Definition off_N (m : string) : Prop :=
  match m with
  | String "N" _ => False
  | _ => True
  end.

(** The events up to and including the start of the tool. *)
Definition office_prelude (i o : Path) (v : bool) : list Event :=
  [EvWhich "soffice"] ++
  (if v then [EvPrint ("Running: " +:+ Str.join " " (office_cmd i o))] else []) ++
  [EvRun (office_cmd i o)].

(** The events of one [run_command]: the verbose line, then the start of
    the process. *)
Definition run_prelude (cmd : list string) (v : bool) : list Event :=
  (if v then [EvPrint ("Running: " +:+ Str.join " " cmd)] else []) ++
  [EvRun cmd].

(** [within bp br bn m]: [m] only extends the trace, with at most [bp]
    search-path lookups, [br] process starts and [bn] renames. *)
Definition within {A : Type} (bp br bn : nat) (m : M A) : Prop :=
  forall w, exists evs,
    trace (snd (m w)) = trace w ++ evs /\
    (length (probes evs) <= bp)%nat /\
    (length (runs evs) <= br)%nat /\
    (length (renames evs) <= bn)%nat.

(** [type(e).__name__] *)
Definition class_name (e : exn) : string :=
  match e with
  | FileNotFoundError _ => "FileNotFoundError"
  | ValueError _ => "ValueError"
  | ConversionError _ => "ConversionError"
  | ToolNotFoundError _ => "ToolNotFoundError"
  | CategoryMismatchError _ => "CategoryMismatchError"
  | OSError _ => "OSError"
  end.

(** Two results of the same kind: the same value, or exceptions of the same
    class (their messages may differ). *)
Definition same_kind {A : Type} (r1 r2 : exn + A) : Prop :=
  match r1, r2 with
  | inr a, inr b => a = b
  | inl e1, inl e2 => class_name e1 = class_name e2
  | _, _ => False
  end.

(** A trace without its printed lines. *)
Definition unprinted (t : list Event) : list Event :=
  List.filter (fun e => match e with EvPrint _ => false | _ => true end) t.

(** Two worlds that differ at most in what has been printed. *)
Definition same_but_prints (w1 w2 : World) : Prop :=
  fs w1 = fs w2 /\ unprinted (trace w1) = unprinted (trace w2).

(** [alike m1 m2]: from worlds that differ at most in what has been
    printed, [m1] and [m2] end with results of the same kind, in worlds that
    again differ at most in what has been printed. *)
Definition alike {A : Type} (m1 m2 : M A) : Prop :=
  forall w1 w2, same_but_prints w1 w2 ->
    same_kind (fst (m1 w1)) (fst (m2 w2)) /\
    same_but_prints (snd (m1 w1)) (snd (m2 w2)).

(** A string without a slash, as every component of a parsed path is. *)
Fixpoint no_slash (s : string) : bool :=
  match s with
  | EmptyString => true
  | String c r => negb (Ascii.eqb c "/"%char) && no_slash r
  end.

(** The world right after an invoker has looked up its tool. *)
Definition probed (tool : string) (w : World) : World :=
  mkWorld (fs w) (trace w ++ [EvWhich tool]).

(** * Properties *)

(** ** Strings *)

Lemma lower_char_dot c : Ascii.eqb (Str.lower_char c) Str.dot = Ascii.eqb c Str.dot.
Proof. destruct c as [[] [] [] [] [] [] [] []]; reflexivity. Qed.

Lemma lower_char_idem c : Str.lower_char (Str.lower_char c) = Str.lower_char c.
Proof. destruct c as [[] [] [] [] [] [] [] []]; reflexivity. Qed.

Lemma lower_idem s : Str.lower (Str.lower s) = Str.lower s.
Proof.
  induction s as [|c r IH]; simpl; [reflexivity|].
  now rewrite lower_char_idem, IH.
Qed.

Lemma lstrip_dot_no_leading s : no_leading_dot (Str.lstrip_dot s).
Proof.
  induction s as [|c r IH]; simpl; [exact I|].
  destruct (Ascii.eqb c Str.dot) eqn:E; [exact IH | exact E].
Qed.

Lemma lstrip_dot_fixed s : no_leading_dot s -> Str.lstrip_dot s = s.
Proof. destruct s as [|c r]; simpl; [reflexivity|]. now intros ->. Qed.

Lemma lower_no_leading s : no_leading_dot s -> no_leading_dot (Str.lower s).
Proof. destruct s as [|c r]; simpl; [trivial|]. now rewrite lower_char_dot. Qed.

Lemma lstrip_dot_idem s : Str.lstrip_dot (Str.lstrip_dot s) = Str.lstrip_dot s.
Proof. apply lstrip_dot_fixed, lstrip_dot_no_leading. Qed.

Lemma strip_one_then_all s : Str.lstrip_dot (Str.strip_one_dot s) = Str.lstrip_dot s.
Proof. destruct s as [|c r]; simpl; [reflexivity|]. now destruct (Ascii.eqb c Str.dot) eqn:E; simpl; rewrite ?E. Qed.

Lemma strip_one_fixed s : no_leading_dot s -> Str.strip_one_dot s = s.
Proof. destruct s as [|c r]; simpl; [reflexivity|]. now intros ->. Qed.

(** ** The alias table *)

Lemma alias_of_unfold e :
  alias_of e = if String.eqb "jpeg" e then "jpg" else e.
Proof.
  unfold alias_of, EXTENSION_ALIASES, dict_get.
  now destruct (String.eqb "jpeg" e).
Qed.

Lemma alias_of_no_leading e : no_leading_dot e -> no_leading_dot (alias_of e).
Proof.
  rewrite alias_of_unfold. destruct (String.eqb "jpeg" e); [|trivial].
  intros _. reflexivity.
Qed.

Lemma alias_of_lower_fixed e :
  Str.lower e = e -> alias_of (Str.lower (alias_of e)) = alias_of e.
Proof.
  intros He. rewrite (alias_of_unfold e).
  destruct (String.eqb "jpeg" e) eqn:E; [reflexivity|].
  now rewrite He, alias_of_unfold, E.
Qed.

Lemma normalize_extension_unfold ext :
  normalize_extension ext = alias_of (Str.lower (Str.lstrip_dot ext)).
Proof. reflexivity. Qed.

Lemma normalize_extension_no_leading ext :
  no_leading_dot (normalize_extension ext).
Proof.
  rewrite normalize_extension_unfold.
  apply alias_of_no_leading, lower_no_leading, lstrip_dot_no_leading.
Qed.

Lemma normalize_extension_lower ext :
  Str.lower (normalize_extension ext) = normalize_extension ext.
Proof.
  rewrite normalize_extension_unfold, alias_of_unfold.
  destruct (String.eqb "jpeg" _); [reflexivity | apply lower_idem].
Qed.

(** Idempotence holds on every string, not only on the table's keys. *)
Lemma normalize_extension_idem ext :
  normalize_extension (normalize_extension ext) = normalize_extension ext.
Proof.
  rewrite (normalize_extension_unfold (normalize_extension ext)).
  rewrite (lstrip_dot_fixed _ (normalize_extension_no_leading ext)).
  rewrite normalize_extension_unfold at 1 2.
  apply alias_of_lower_fixed, lower_idem.
Qed.

(** ** [normalize_extension] *)

(** C5 (counterexample).  On [..JPG] the function removes both separators
    and returns [jpg]; removing one separator, lowercasing and resolving the
    alias gives [.jpg]. *)
Lemma normalize_extension_two_separators :
  normalize_extension "..JPG" = "jpg" /\
  normalize_one_separator "..JPG" = ".jpg" /\
  normalize_extension "..JPG" <> normalize_one_separator "..JPG".
Proof. vm_compute. repeat split; congruence. Qed.

(** C5 (amended).  [normalize_extension] is a total function that, on every
    string, removes every leading separator, lowercases, then substitutes
    the canonical spelling of a known alias; its result never begins with a
    separator, and it coincides with the one-separator composition exactly
    on the inputs that carry at most one leading separator. *)
Theorem normalize_extension_strips_every_separator (ext : string) :
  normalize_extension ext = alias_of (Str.lower (Str.lstrip_dot ext)) /\
  no_leading_dot (normalize_extension ext) /\
  (normalize_extension ext = normalize_one_separator ext <->
   no_leading_dot (Str.strip_one_dot ext)).
Proof.
  split; [reflexivity|]. split; [apply normalize_extension_no_leading|].
  split.
  - intros Heq.
    pose proof (normalize_extension_no_leading ext) as Hn.
    rewrite Heq in Hn. unfold normalize_one_separator in Hn.
    destruct (Str.strip_one_dot ext) as [|c r]; [exact I|].
    simpl. destruct (Ascii.eqb c Str.dot) eqn:E; [|reflexivity].
    apply Ascii.eqb_eq in E. subst c. exfalso.
    rewrite alias_of_unfold in Hn. simpl in Hn. discriminate Hn.
  - intros Hn. unfold normalize_one_separator.
    rewrite normalize_extension_unfold, <- strip_one_then_all.
    now rewrite (lstrip_dot_fixed _ Hn).
Qed.

(** C6.  On every key of the extension table, normalising twice is the same
    as normalising once. *)
Theorem normalize_extension_idempotent_on_table (x : string) :
  x ∈ dict_keys EXTENSION_TO_CATEGORY ->
  normalize_extension (normalize_extension x) = normalize_extension x.
Proof. intros _. apply normalize_extension_idem. Qed.

Lemma normalize_extension_idempotent_on_table_witness :
  "jpeg" ∈ dict_keys EXTENSION_TO_CATEGORY /\
  normalize_extension (normalize_extension "jpeg") = normalize_extension "jpeg".
Proof.
  assert (H : "jpeg" ∈ dict_keys EXTENSION_TO_CATEGORY).
  { apply (bool_decide_unpack _). vm_compute. exact I. }
  split; [exact H | exact (normalize_extension_idempotent_on_table "jpeg" H)].
Defined.

(** ** Dictionaries and sorting *)

Lemma dict_get_Some {V : Type} (d : list (string * V)) k v :
  dict_get d k = Some v -> (k, v) ∈ d.
Proof.
  induction d as [|[k' v'] d IH]; simpl; [discriminate|].
  destruct (String.eqb k' k) eqn:E.
  - apply String.eqb_eq in E. intros [= ->]. subst k'. left.
  - intros H. right. now apply IH.
Qed.

Lemma dict_get_keys {V : Type} (d : list (string * V)) k :
  k ∈ dict_keys d <-> is_Some (dict_get d k).
Proof.
  unfold dict_keys. induction d as [|[k' v'] d IH]; simpl.
  - split; [intros H; inversion H | intros [? [=]]].
  - destruct (String.eqb k' k) eqn:E.
    + apply String.eqb_eq in E. subst k'. split; [eauto | intros _; left].
    + apply String.eqb_neq in E. rewrite <- IH. split.
      * intros H. inversion H; subst; [congruence | assumption].
      * intros H. now right.
Qed.

Lemma insert_sorted_perm x l : Str.insert_sorted x l ≡ₚ x :: l.
Proof.
  induction l as [|y r IH]; simpl; [reflexivity|].
  destruct (Str.leb x y); [reflexivity|].
  rewrite IH. apply Permutation_swap.
Qed.

Lemma sorted_perm l : Str.sorted l ≡ₚ l.
Proof.
  induction l as [|x r IH]; simpl; [reflexivity|].
  now rewrite insert_sorted_perm, IH.
Qed.

Lemma insert_sorted_HdRel a x l :
  leb_rel a x -> HdRel leb_rel a l -> HdRel leb_rel a (Str.insert_sorted x l).
Proof.
  intros Hax Hal. destruct l as [|y r]; simpl; [now constructor|].
  destruct (Str.leb x y); constructor; [assumption|].
  now inversion Hal.
Qed.

Lemma insert_sorted_Sorted x l :
  Sorted leb_rel l -> Sorted leb_rel (Str.insert_sorted x l).
Proof.
  induction 1 as [|y r Hs IH Hhd]; simpl; [repeat constructor|].
  destruct (Str.leb x y) eqn:E.
  - constructor; [now constructor | now constructor].
  - constructor; [exact IH|].
    apply insert_sorted_HdRel; [|exact Hhd].
    unfold leb_rel, Str.leb in *.
    destruct (String.leb_total x y) as [H|H]; [congruence | exact H].
Qed.

Lemma sorted_Sorted l : Sorted leb_rel (Str.sorted l).
Proof.
  induction l as [|x r IH]; simpl; [constructor|].
  now apply insert_sorted_Sorted.
Qed.

Lemma table_keys_distinct :
  Str.distinct (dict_keys EXTENSION_TO_CATEGORY) = dict_keys EXTENSION_TO_CATEGORY.
Proof. vm_compute. reflexivity. Qed.

(** ** [get_category] *)

Lemma unsupported_msg_shape ext :
  unsupported_msg ext =
  "Unsupported file format: " +:+ shown_extension ext +:+ Str.nl +:+
  "Supported formats: " +:+
  Str.join ", " (Str.sorted (Str.distinct (dict_keys EXTENSION_TO_CATEGORY))).
Proof. destruct ext; reflexivity. Qed.

(** C4.  [get_category] returns the table's category whenever the path's
    normalised extension is a key of the table; otherwise it raises
    [ValueError] with a message made of the unrecognised extension and the
    supported extensions, all of them, in ascending order. *)
Theorem get_category_total_on_table (p : Path) :
  (get_extension p ∈ dict_keys EXTENSION_TO_CATEGORY ->
   exists c, get_category p = inr c /\
             (get_extension p, c) ∈ EXTENSION_TO_CATEGORY) /\
  (get_extension p ∉ dict_keys EXTENSION_TO_CATEGORY ->
   exists supported,
     get_category p =
       inl (ValueError
              ("Unsupported file format: " +:+
               shown_extension (get_extension p) +:+ Str.nl +:+
               "Supported formats: " +:+ Str.join ", " supported)) /\
     Sorted leb_rel supported /\
     supported ≡ₚ dict_keys EXTENSION_TO_CATEGORY).
Proof.
  split.
  - intros Hin. apply dict_get_keys in Hin. destruct Hin as [c Hc].
    exists c. split; [|now apply dict_get_Some].
    unfold get_category. now rewrite Hc.
  - intros Hout.
    exists (Str.sorted (Str.distinct (dict_keys EXTENSION_TO_CATEGORY))).
    split; [|split].
    + unfold get_category.
      destruct (dict_get EXTENSION_TO_CATEGORY (get_extension p)) as [c|] eqn:E.
      * exfalso. apply Hout, dict_get_keys. now exists c.
      * now rewrite unsupported_msg_shape.
    + apply sorted_Sorted.
    + rewrite table_keys_distinct. apply sorted_perm.
Qed.

Lemma get_category_total_on_table_witness :
  (exists c, get_category (PathLib.of_str "/music/song.MP3") = inr c /\
             (get_extension (PathLib.of_str "/music/song.MP3"), c)
               ∈ EXTENSION_TO_CATEGORY) /\
  (exists supported,
     get_category (PathLib.of_str "/data/table.xyz") =
       inl (ValueError
              ("Unsupported file format: " +:+
               shown_extension (get_extension (PathLib.of_str "/data/table.xyz")) +:+
               Str.nl +:+ "Supported formats: " +:+ Str.join ", " supported)) /\
     Sorted leb_rel supported /\
     supported ≡ₚ dict_keys EXTENSION_TO_CATEGORY).
Proof.
  split.
  - apply (proj1 (get_category_total_on_table (PathLib.of_str "/music/song.MP3"))).
    apply (bool_decide_unpack _). vm_compute. exact I.
  - apply (proj2 (get_category_total_on_table (PathLib.of_str "/data/table.xyz"))).
    apply (bool_decide_unpack _). vm_compute. exact I.
Defined.

Section Routing.

Variable on_path : string -> bool.
Variable spawn : list string -> gmap Path Entry -> Spawn.

(** *** Stepping through [convert_file] *)

Lemma convert_file_missing i o v w :
  fs w !! i = None ->
  convert_file on_path spawn i o v w =
  (inl (FileNotFoundError ("Input file not found: " +:+ PathLib.to_str i)), w).
Proof.
  intros H. unfold convert_file, bind, exists_.
  rewrite bool_decide_eq_false_2; [reflexivity|].
  rewrite H. intros [? [=]].
Qed.

Lemma convert_file_bad_input i o v w m :
  is_Some (fs w !! i) ->
  get_category i = inl (ValueError m) ->
  convert_file on_path spawn i o v w =
  (inl (ValueError ("Unsupported input format: " +:+ m)), w).
Proof.
  intros H Hc. unfold convert_file, bind, exists_.
  rewrite (bool_decide_eq_true_2 _ H). cbn [negb].
  unfold classify, try_except, lift. now rewrite Hc.
Qed.

Lemma convert_file_bad_output i o v w c m :
  is_Some (fs w !! i) ->
  get_category i = inr c ->
  get_category o = inl (ValueError m) ->
  convert_file on_path spawn i o v w =
  (inl (ValueError ("Unsupported output format: " +:+ m)), w).
Proof.
  intros H Hi Ho. unfold convert_file, bind, exists_.
  rewrite (bool_decide_eq_true_2 _ H). cbn [negb].
  unfold classify, try_except, lift. now rewrite Hi, Ho.
Qed.

Lemma convert_file_mismatch i o v w ci co :
  is_Some (fs w !! i) ->
  get_category i = inr ci ->
  get_category o = inr co ->
  ci <> co ->
  convert_file on_path spawn i o v w =
  (inl (CategoryMismatchError (mismatch_msg ci co)), w).
Proof.
  intros H Hi Ho Hne. unfold convert_file, bind, exists_.
  rewrite (bool_decide_eq_true_2 _ H). cbn [negb].
  unfold classify, try_except, lift. rewrite Hi, Ho.
  now rewrite (bool_decide_eq_false_2 _ Hne).
Qed.

Lemma convert_file_routes i o v w c :
  is_Some (fs w !! i) ->
  get_category i = inr c ->
  get_category o = inr c ->
  convert_file on_path spawn i o v w =
  invoker_of on_path spawn c i o v (announced v c i o w).
Proof.
  intros H Hi Ho. unfold convert_file, bind, exists_.
  rewrite (bool_decide_eq_true_2 _ H). cbn [negb].
  unfold classify, try_except, lift. rewrite Hi, Ho.
  rewrite (bool_decide_eq_true_2 _ eq_refl). cbn [negb].
  unfold announced, print_if, print, emit, ret.
  destruct v, c; reflexivity.
Qed.

End Routing.

(** ** What a computation may emit *)

Section EmitsOnly.

Context (ok : Event -> bool).

Lemma emits_only_ret {A} (a : A) : emits_only ok (ret a).
Proof. intros w. exists []. now rewrite app_nil_r. Qed.

Lemma emits_only_raise {A} (e : exn) : emits_only ok (@raise A e).
Proof. intros w. exists []. now rewrite app_nil_r. Qed.

Lemma emits_only_lift {A} (r : exn + A) : emits_only ok (lift r).
Proof. intros w. exists []. now rewrite app_nil_r. Qed.

Lemma emits_only_exists p : emits_only ok (exists_ p).
Proof. intros w. exists []. now rewrite app_nil_r. Qed.

Lemma emits_only_emit e : ok e = true -> emits_only ok (emit e).
Proof. intros H w. exists [e]. simpl. now rewrite H. Qed.

Lemma emits_only_print_if v line :
  ok (EvPrint line) = true -> emits_only ok (print_if v line).
Proof.
  intros H. destruct v; [now apply emits_only_emit | apply emits_only_ret].
Qed.

Lemma emits_only_bind {A B} (m : M A) (k : A -> M B) :
  emits_only ok m -> (forall a, emits_only ok (k a)) -> emits_only ok (bind m k).
Proof.
  intros Hm Hk w. unfold bind.
  destruct (Hm w) as [e1 [H1 F1]].
  destruct (m w) as [[e|a] w1]; simpl in *.
  - now exists e1.
  - destruct (Hk a w1) as [e2 [H2 F2]].
    exists (e1 ++ e2). rewrite H2, H1, <- app_assoc. split; [reflexivity|].
    now rewrite forallb_app, F1, F2.
Qed.

Lemma emits_only_try_except {A} (m : M A) (h : exn -> option (M A)) :
  emits_only ok m ->
  (forall e k, h e = Some k -> emits_only ok k) ->
  emits_only ok (try_except m h).
Proof.
  intros Hm Hh w. unfold try_except.
  destruct (Hm w) as [e1 [H1 F1]].
  destruct (m w) as [[e|a] w1]; simpl in *; [|now exists e1].
  destruct (h e) as [k|] eqn:E; simpl; [|now exists e1].
  destruct (Hh e k E w1) as [e2 [H2 F2]].
  exists (e1 ++ e2). rewrite H2, H1, <- app_assoc. split; [reflexivity|].
  now rewrite forallb_app, F1, F2.
Qed.

Lemma emits_only_rename src dst :
  ok (EvRename src dst) = true -> emits_only ok (rename src dst).
Proof.
  intros H w. unfold rename.
  destruct (fs w !! src) as [[c|]|], (fs w !! dst) as [[c'|]|]; simpl;
    first [ exists []; now rewrite app_nil_r
          | exists [EvRename src dst]; simpl; now rewrite H ].
Qed.

Section WithOS.

Variable on_path : string -> bool.
Variable spawn : list string -> gmap Path Entry -> Spawn.

Lemma emits_only_subprocess_run cmd :
  ok (EvRun cmd) = true -> emits_only ok (subprocess_run spawn cmd).
Proof.
  intros H w. unfold subprocess_run. exists [EvRun cmd].
  destruct (spawn cmd (fs w)); simpl; now rewrite H.
Qed.

Hypothesis ok_print : forall line, ok (EvPrint line) = true.
Hypothesis ok_run : forall cmd, ok (EvRun cmd) = true.
Hypothesis ok_rename : forall a b, ok (EvRename a b) = true.

Lemma emits_only_run_command cmd v tool :
  emits_only ok (run_command spawn cmd v tool).
Proof.
  unfold run_command.
  apply emits_only_bind; [now apply emits_only_print_if|]. intros _.
  apply emits_only_bind.
  - apply emits_only_try_except; [now apply emits_only_subprocess_run|].
    intros e k. destruct e; intros [= <-]. apply emits_only_raise.
  - intros r. destruct (negb _); [apply emits_only_raise | apply emits_only_ret].
Qed.

(** What each invoker does once its tool has been looked up. *)
Lemma emits_only_after_probe c i o v :
  exists k,
    invoker_of on_path spawn c i o v =
      bind (check_tool_available on_path (binary_of (backend_of c))) k /\
    forall a, emits_only ok (k a).
Proof.
  destruct c; simpl; (eexists; split; [reflexivity|]); intros a;
    (destruct a; cbn [negb]; [|apply emits_only_raise]).
  - (* audio *)
    apply emits_only_bind; [|intros; apply emits_only_run_command].
    repeat (destruct (String.eqb _ _);
            [apply emits_only_ret|]). apply emits_only_raise.
  - (* image *)
    apply emits_only_run_command.
  - (* video *)
    apply emits_only_bind; [|intros; apply emits_only_run_command].
    repeat (destruct (String.eqb _ _);
            [apply emits_only_ret|]). apply emits_only_raise.
  - apply emits_only_bind; [apply emits_only_run_command|]. intros _.
    apply emits_only_bind; [apply emits_only_exists|]. intros b.
    destruct (negb b); [apply emits_only_raise|].
    destruct (negb _); [|apply emits_only_ret].
    apply emits_only_bind; [now apply emits_only_print_if|]. intros _.
    now apply emits_only_rename.
  - apply emits_only_bind; [apply emits_only_run_command|]. intros _.
    apply emits_only_bind; [apply emits_only_exists|]. intros b.
    destruct (negb b); [apply emits_only_raise|].
    destruct (negb _); [|apply emits_only_ret].
    apply emits_only_bind; [now apply emits_only_print_if|]. intros _.
    now apply emits_only_rename.
  - apply emits_only_bind; [apply emits_only_run_command|]. intros _.
    apply emits_only_bind; [apply emits_only_exists|]. intros b.
    destruct (negb b); [apply emits_only_raise|].
    destruct (negb _); [|apply emits_only_ret].
    apply emits_only_bind; [now apply emits_only_print_if|]. intros _.
    now apply emits_only_rename.
Qed.

End WithOS.

End EmitsOnly.

(** ** What a computation may raise *)

Section RaisesOnly.

Context (P : exn -> Prop).

Lemma raises_only_ret {A} (a : A) : raises_only P (ret a).
Proof. intros w e w' [=]. Qed.

Lemma raises_only_raise {A} (e : exn) : P e -> raises_only P (@raise A e).
Proof. intros H w e' w' [= <- _]. exact H. Qed.

Lemma raises_only_exists p : raises_only P (exists_ p).
Proof. intros w e w' [=]. Qed.

Lemma raises_only_emit ev : raises_only P (emit ev).
Proof. intros w e w' [=]. Qed.

Lemma raises_only_print_if v line : raises_only P (print_if v line).
Proof. destruct v; [apply raises_only_emit | apply raises_only_ret]. Qed.

Lemma raises_only_bind {A B} (m : M A) (k : A -> M B) :
  raises_only P m -> (forall a, raises_only P (k a)) -> raises_only P (bind m k).
Proof.
  intros Hm Hk w e w'. unfold bind.
  destruct (m w) as [[e1|a] w1] eqn:E.
  - intros [= <- _]. eapply Hm, E.
  - apply Hk.
Qed.

Lemma raises_only_try_except {A} (m : M A) (h : exn -> option (M A)) :
  (forall w e w', m w = (inl e, w') -> h e = None -> P e) ->
  (forall e k, h e = Some k -> raises_only P k) ->
  raises_only P (try_except m h).
Proof.
  intros Hm Hh w e w'. unfold try_except.
  destruct (m w) as [[e1|a] w1] eqn:E; [|intros [=]].
  destruct (h e1) as [k|] eqn:Eh.
  - eapply Hh, Eh.
  - intros [= <- _]. eapply Hm; eauto.
Qed.

Hypothesis P_os : forall m, P (FileNotFoundError m) /\ P (OSError m).

Lemma raises_only_rename src dst : raises_only P (rename src dst).
Proof.
  intros w e w'. unfold rename.
  destruct (fs w !! src) as [[c|]|], (fs w !! dst) as [[c'|]|];
    intros [= <- _] || intros [=]; apply P_os.
Qed.

End RaisesOnly.

(** ** The search-path lookups of an invoker *)

Lemma probes_app t1 t2 : probes (t1 ++ t2) = probes t1 ++ probes t2.
Proof. apply omap_app. Qed.

Lemma runs_app t1 t2 : runs (t1 ++ t2) = runs t1 ++ runs t2.
Proof. apply omap_app. Qed.

Lemma renames_app t1 t2 : renames (t1 ++ t2) = renames t1 ++ renames t2.
Proof. apply omap_app. Qed.

Lemma probes_none evs :
  forallb (fun e => negb (is_which e)) evs = true -> probes evs = [].
Proof.
  induction evs as [|e r IH]; simpl; [reflexivity|].
  destruct e; simpl; try discriminate; exact IH.
Qed.

Lemma invoker_probes on_path spawn c i o v w :
  probes (trace (snd (invoker_of on_path spawn c i o v w))) =
  probes (trace w) ++ [binary_of (backend_of c)].
Proof.
  destruct (emits_only_after_probe (fun e => negb (is_which e)) on_path spawn
              (fun _ => eq_refl) (fun _ => eq_refl) (fun _ _ => eq_refl) c i o v)
    as [k [-> Hk]].
  unfold bind at 1. unfold check_tool_available, bind, emit, ret.
  match goal with |- context [k ?a ?w1] => destruct (Hk a w1) as [evs [Ht Hf]] end.
  destruct (k _ _) as [[e|[]] w2]; simpl in *;
    rewrite Ht, !probes_app, (probes_none _ Hf), app_nil_r; reflexivity.
Qed.

Lemma invoker_marks_trace on_path spawn c i o v w :
  trace (snd (invoker_of on_path spawn c i o v w)) <> trace w.
Proof.
  intros H. pose proof (invoker_probes on_path spawn c i o v w) as Hp.
  rewrite H in Hp. apply (f_equal length) in Hp.
  rewrite length_app in Hp. simpl in Hp. lia.
Qed.

(** ** The dispatcher *)

(** C1.  When the input exists and the two paths classify to different
    categories, [convert_file] raises [CategoryMismatchError] with a message
    that names both categories, and returns the world exactly as it found
    it: nothing was looked up, printed, run or renamed.  Any call of an
    invoker would have left a mark on the trace. *)
Theorem convert_file_category_mismatch
    (on_path : string -> bool) (spawn : list string -> gmap Path Entry -> Spawn)
    (i o : Path) (v : bool) (w : World) (ci co : Category) :
  is_Some (fs w !! i) ->
  get_category i = inr ci ->
  get_category o = inr co ->
  ci <> co ->
  convert_file on_path spawn i o v w =
    (inl (CategoryMismatchError (mismatch_msg ci co)), w) /\
  Str.contains ("Input category: " +:+ value ci) (mismatch_msg ci co) = true /\
  Str.contains ("Output category: " +:+ value co) (mismatch_msg ci co) = true /\
  (forall c i' o' v' w0,
     trace (snd (invoker_of on_path spawn c i' o' v' w0)) <> trace w0).
Proof.
  intros H Hi Ho Hne. split; [now apply convert_file_mismatch|].
  split; [|split].
  - destruct ci, co; vm_compute; reflexivity.
  - destruct ci, co; vm_compute; reflexivity.
  - intros. apply invoker_marks_trace.
Qed.

Lemma convert_file_category_mismatch_witness :
  convert_file Demo.all_tools Demo.soffice_like
    Demo.song_mp3 Demo.photo_jpg true Demo.w0 =
    (inl (CategoryMismatchError (mismatch_msg AUDIO IMAGE)), Demo.w0) /\
  Str.contains ("Input category: " +:+ value AUDIO) (mismatch_msg AUDIO IMAGE) = true /\
  Str.contains ("Output category: " +:+ value IMAGE) (mismatch_msg AUDIO IMAGE) = true /\
  (forall c i' o' v' w0,
     trace (snd (invoker_of Demo.all_tools Demo.soffice_like c i' o' v' w0))
     <> trace w0).
Proof.
  apply (convert_file_category_mismatch Demo.all_tools Demo.soffice_like
           Demo.song_mp3 Demo.photo_jpg true Demo.w0 AUDIO IMAGE).
  - vm_compute. eauto.
  - vm_compute. reflexivity.
  - vm_compute. reflexivity.
  - discriminate.
Defined.

(** C2 (counterexample).  [/nowhere/a.mp3] and [/nowhere/b.wav] both
    classify as audio, yet with no file at the input path [convert_file]
    raises [FileNotFoundError] and reaches no invoker: nothing is looked up
    on the search path and nothing is run. *)
Lemma convert_file_missing_input_reaches_no_invoker :
  get_category Demo.nowhere_mp3 = inr AUDIO /\
  get_category Demo.nowhere_wav = inr AUDIO /\
  convert_file Demo.all_tools Demo.soffice_like
    Demo.nowhere_mp3 Demo.nowhere_wav false Demo.w_empty =
    (inl (FileNotFoundError "Input file not found: /nowhere/a.mp3"), Demo.w_empty) /\
  convert_file Demo.all_tools Demo.soffice_like
    Demo.nowhere_mp3 Demo.nowhere_wav false Demo.w_empty <>
  invoker_of Demo.all_tools Demo.soffice_like AUDIO
    Demo.nowhere_mp3 Demo.nowhere_wav false Demo.w_empty /\
  probes (trace (snd (convert_file Demo.all_tools Demo.soffice_like
    Demo.nowhere_mp3 Demo.nowhere_wav false Demo.w_empty))) = [].
Proof. vm_compute. repeat split; congruence. Qed.

(** C2 (amended).  When the input exists and both paths classify to the same
    category, [convert_file] is exactly one call of the invoker assigned to
    that category (audio and video: the FFmpeg invokers; image: the
    ImageMagick invoker; document, spreadsheet, presentation: the
    LibreOffice invoker), made after the optional verbose line; the only
    search-path lookup of the whole call is that backend's executable. *)
Theorem convert_file_routes_to_one_invoker
    (on_path : string -> bool) (spawn : list string -> gmap Path Entry -> Spawn)
    (i o : Path) (v : bool) (w : World) (c : Category) :
  is_Some (fs w !! i) ->
  get_category i = inr c ->
  get_category o = inr c ->
  convert_file on_path spawn i o v w =
    invoker_of on_path spawn c i o v (announced v c i o w) /\
  probes (trace (snd (convert_file on_path spawn i o v w))) =
    probes (trace w) ++ [binary_of (backend_of c)].
Proof.
  intros H Hi Ho.
  rewrite (convert_file_routes on_path spawn i o v w c H Hi Ho).
  split; [reflexivity|]. rewrite invoker_probes. f_equal.
  unfold announced. destruct v; [|reflexivity].
  simpl. rewrite probes_app. simpl. apply app_nil_r.
Qed.

Lemma convert_file_routes_to_one_invoker_witness :
  convert_file Demo.all_tools Demo.soffice_like
    Demo.report_docx Demo.final_odt true Demo.w0 =
    invoker_of Demo.all_tools Demo.soffice_like DOCUMENT
      Demo.report_docx Demo.final_odt true
      (announced true DOCUMENT Demo.report_docx Demo.final_odt Demo.w0) /\
  probes (trace (snd (convert_file Demo.all_tools Demo.soffice_like
    Demo.report_docx Demo.final_odt true Demo.w0))) =
    probes (trace Demo.w0) ++ [binary_of (backend_of DOCUMENT)].
Proof.
  apply (convert_file_routes_to_one_invoker Demo.all_tools Demo.soffice_like
           Demo.report_docx Demo.final_odt true Demo.w0 DOCUMENT).
  - vm_compute. eauto.
  - vm_compute. reflexivity.
  - vm_compute. reflexivity.
Defined.

(** C7.  An invoker whose executable does not resolve on the search path
    raises [ToolNotFoundError] with a message that begins with the tool's
    name, right after the lookup: the file system is untouched and the only
    event is the lookup itself, so no command was built or run.  The same
    holds for the whole of [convert_file] on a request that reaches the
    invoker. *)
Theorem missing_tool_raises_before_any_command
    (on_path : string -> bool) (spawn : list string -> gmap Path Entry -> Spawn)
    (c : Category) (i o : Path) (v : bool) :
  on_path (binary_of (backend_of c)) = false ->
  exists m,
    Str.startswith (label_of (backend_of c)) m = true /\
    (forall w,
       invoker_of on_path spawn c i o v w =
         (inl (ToolNotFoundError m),
          mkWorld (fs w) (trace w ++ [EvWhich (binary_of (backend_of c))]))) /\
    (forall w,
       is_Some (fs w !! i) ->
       get_category i = inr c ->
       get_category o = inr c ->
       exists w',
         convert_file on_path spawn i o v w = (inl (ToolNotFoundError m), w') /\
         fs w' = fs w /\
         runs (trace w') = runs (trace w) /\
         renames (trace w') = renames (trace w)).
Proof.
  intros Hno.
  assert (Hinv : exists m,
    Str.startswith (label_of (backend_of c)) m = true /\
    forall w, invoker_of on_path spawn c i o v w =
      (inl (ToolNotFoundError m),
       mkWorld (fs w) (trace w ++ [EvWhich (binary_of (backend_of c))]))).
  { destruct c; simpl in Hno |- *;
      unfold convert_audio, convert_image, convert_video, convert_office,
             bind, check_tool_available, emit, ret, raise;
      rewrite Hno; (eexists; split; [|intros w; reflexivity]); reflexivity. }
  destruct Hinv as [m [Hm Hinv]]. exists m. split; [exact Hm|].
  split; [exact Hinv|].
  intros w H Hi Ho.
  rewrite (convert_file_routes on_path spawn i o v w c H Hi Ho), Hinv.
  eexists. split; [reflexivity|]. simpl.
  unfold announced. destruct v; simpl;
    rewrite ?runs_app, ?renames_app; simpl; rewrite ?app_nil_r; auto.
Qed.

Lemma missing_tool_raises_before_any_command_witness :
  exists m,
    Str.startswith (label_of (backend_of VIDEO)) m = true /\
    invoker_of Demo.no_tools Demo.soffice_like VIDEO
      Demo.clip_mov Demo.clip_mp4 false Demo.w0 =
      (inl (ToolNotFoundError m),
       mkWorld (fs Demo.w0)
               (trace Demo.w0 ++ [EvWhich (binary_of (backend_of VIDEO))])) /\
    exists w',
      convert_file Demo.no_tools Demo.soffice_like
        Demo.clip_mov Demo.clip_mp4 false Demo.w0 =
        (inl (ToolNotFoundError m), w') /\
      fs w' = fs Demo.w0 /\
      runs (trace w') = runs (trace Demo.w0) /\
      renames (trace w') = renames (trace Demo.w0).
Proof.
  destruct (missing_tool_raises_before_any_command
              Demo.no_tools Demo.soffice_like
              VIDEO Demo.clip_mov Demo.clip_mp4 false eq_refl)
    as [m [Hm [Hinv Hfile]]].
  exists m. split; [exact Hm|]. split; [apply Hinv|].
  apply Hfile.
  - vm_compute. eauto.
  - vm_compute. reflexivity.
  - vm_compute. reflexivity.
Defined.

Lemma get_category_raises_ValueError p e :
  get_category p = inl e -> exists m, e = ValueError m.
Proof.
  unfold get_category. destruct (dict_get _ _); [discriminate|].
  intros [= <-]. eauto.
Qed.

(** C10.  A path whose name has an empty suffix is never classified:
    [get_category] raises [ValueError] and the message shows
    [(no extension)] where an extension would stand.  Hence [convert_file]
    fails, with the world untouched, on every request that has such a path
    as its input or as its output, and it reports the path as an unsupported
    input, or as an unsupported output, as soon as it gets to classify it. *)
Theorem get_category_no_extension (p : Path) :
  PathLib.suffix p = "" ->
  get_category p =
    inl (ValueError ("Unsupported file format: (no extension)" +:+ Str.nl +:+
                     "Supported formats: " +:+ supported_formats_text)) /\
  (forall on_path spawn q v w,
     (exists e, convert_file on_path spawn p q v w = (inl e, w)) /\
     (exists e, convert_file on_path spawn q p v w = (inl e, w))) /\
  (forall on_path spawn o v w,
     is_Some (fs w !! p) ->
     convert_file on_path spawn p o v w =
       (inl (ValueError ("Unsupported input format: " +:+
                         "Unsupported file format: (no extension)" +:+ Str.nl +:+
                         "Supported formats: " +:+ supported_formats_text)), w)) /\
  (forall on_path spawn i v w c,
     is_Some (fs w !! i) ->
     get_category i = inr c ->
     convert_file on_path spawn i p v w =
       (inl (ValueError ("Unsupported output format: " +:+
                         "Unsupported file format: (no extension)" +:+ Str.nl +:+
                         "Supported formats: " +:+ supported_formats_text)), w)).
Proof.
  intros Hs.
  assert (Hc : get_category p =
    inl (ValueError ("Unsupported file format: (no extension)" +:+ Str.nl +:+
                     "Supported formats: " +:+ supported_formats_text))).
  { unfold get_category, get_extension. rewrite Hs. reflexivity. }
  split; [exact Hc|]. split; [|split].
  - intros on_path spawn q v w. split.
    + destruct (fs w !! p) as [e|] eqn:E.
      * rewrite (convert_file_bad_input on_path spawn p q v w _
                   (ltac:(rewrite E; eauto)) Hc). eauto.
      * rewrite (convert_file_missing on_path spawn p q v w E). eauto.
    + destruct (fs w !! q) as [e|] eqn:E;
        [|rewrite (convert_file_missing on_path spawn q p v w E); eauto].
      assert (H : is_Some (fs w !! q)) by (rewrite E; eauto).
      destruct (get_category q) as [eq|c] eqn:Hq.
      * destruct (get_category_raises_ValueError q eq Hq) as [m ->].
        rewrite (convert_file_bad_input on_path spawn q p v w _ H Hq). eauto.
      * rewrite (convert_file_bad_output on_path spawn q p v w c _ H Hq Hc). eauto.
  - intros on_path spawn o v w H.
    now rewrite (convert_file_bad_input on_path spawn p o v w _ H Hc).
  - intros on_path spawn i v w c H Hi.
    now rewrite (convert_file_bad_output on_path spawn i p v w c _ H Hi Hc).
Qed.

Lemma get_category_no_extension_witness :
  PathLib.suffix Demo.readme = "" /\
  get_category Demo.readme =
    inl (ValueError ("Unsupported file format: (no extension)" +:+ Str.nl +:+
                     "Supported formats: " +:+ supported_formats_text)) /\
  fst (convert_file Demo.all_tools Demo.soffice_like
         Demo.readme Demo.report_odt false Demo.w0) =
    inl (ValueError ("Unsupported input format: " +:+
                     "Unsupported file format: (no extension)" +:+ Str.nl +:+
                     "Supported formats: " +:+ supported_formats_text)) /\
  fst (convert_file Demo.all_tools Demo.soffice_like
         Demo.report_docx Demo.readme false Demo.w0) =
    inl (ValueError ("Unsupported output format: " +:+
                     "Unsupported file format: (no extension)" +:+ Str.nl +:+
                     "Supported formats: " +:+ supported_formats_text)).
Proof.
  assert (Hs : PathLib.suffix Demo.readme = "") by (vm_compute; reflexivity).
  destruct (get_category_no_extension Demo.readme Hs) as [Hc [_ [Hin Hout]]].
  split; [exact Hs|]. split; [exact Hc|]. split.
  - rewrite (Hin Demo.all_tools Demo.soffice_like Demo.report_odt false Demo.w0);
      [reflexivity|]. vm_compute. eauto.
  - rewrite (Hout Demo.all_tools Demo.soffice_like Demo.report_docx false Demo.w0
               DOCUMENT); [reflexivity| |].
    + vm_compute. eauto.
    + vm_compute. reflexivity.
Defined.

(** ** The dispatcher's last branch *)

Lemma off_N_not_no_converter m : off_N m -> not_no_converter (ConversionError m).
Proof. intros H c [= ->]. exact H. Qed.

Section LastBranch.

Variable on_path : string -> bool.
Variable spawn : list string -> gmap Path Entry -> Spawn.

Lemma run_command_not_no_converter cmd v a t :
  off_N (String a t) ->
  raises_only not_no_converter (run_command spawn cmd v (String a t)).
Proof.
  intros Hoff. unfold run_command.
  apply raises_only_bind; [apply raises_only_print_if|]. intros _.
  apply raises_only_bind.
  - apply raises_only_try_except.
    + intros w e w'. unfold subprocess_run.
      destruct (spawn cmd (fs w)); intros [= <- _]. discriminate.
    + intros e k. destruct e; intros [= <-].
      apply raises_only_raise. intros c. discriminate.
  - intros r. destruct (negb _); [|apply raises_only_ret].
    apply raises_only_raise, off_N_not_no_converter.
    destruct (v || _), (v && _); exact Hoff.
Qed.

Lemma invoker_not_no_converter c i o v :
  raises_only not_no_converter (invoker_of on_path spawn c i o v).
Proof.
  assert (Htool : forall m, not_no_converter (ToolNotFoundError m))
    by (intros m c'; discriminate).
  assert (Hos : forall m, not_no_converter (FileNotFoundError m) /\
                          not_no_converter (OSError m))
    by (intros m; split; intros c'; discriminate).
  assert (Hoffice : raises_only not_no_converter (convert_office on_path spawn i o v)).
  { unfold convert_office.
    apply raises_only_bind;
      [apply raises_only_bind; [apply raises_only_emit | intros; apply raises_only_ret]|].
    intros a. destruct (negb a); [now apply raises_only_raise|].
    apply raises_only_bind; [now apply run_command_not_no_converter|]. intros _.
    apply raises_only_bind; [apply raises_only_exists|]. intros b.
    destruct (negb b); [apply raises_only_raise, off_N_not_no_converter; exact I|].
    destruct (negb _); [|apply raises_only_ret].
    apply raises_only_bind; [apply raises_only_print_if|]. intros _.
    now apply raises_only_rename. }
  destruct c; simpl; try exact Hoffice.
  - unfold convert_audio.
    apply raises_only_bind;
      [apply raises_only_bind; [apply raises_only_emit | intros; apply raises_only_ret]|].
    intros a. destruct (negb a); [now apply raises_only_raise|].
    apply raises_only_bind; [|intros; now apply run_command_not_no_converter].
    repeat (destruct (String.eqb _ _); [apply raises_only_ret|]).
    apply raises_only_raise, off_N_not_no_converter. exact I.
  - unfold convert_image.
    apply raises_only_bind;
      [apply raises_only_bind; [apply raises_only_emit | intros; apply raises_only_ret]|].
    intros a. destruct (negb a); [now apply raises_only_raise|].
    now apply run_command_not_no_converter.
  - unfold convert_video.
    apply raises_only_bind;
      [apply raises_only_bind; [apply raises_only_emit | intros; apply raises_only_ret]|].
    intros a. destruct (negb a); [now apply raises_only_raise|].
    apply raises_only_bind; [|intros; now apply run_command_not_no_converter].
    repeat (destruct (String.eqb _ _); [apply raises_only_ret|]).
    apply raises_only_raise, off_N_not_no_converter. exact I.
Qed.

End LastBranch.

(** C8.  The four guards of the dispatch chain cover the six categories, so
    the chain always takes a converter branch, and no call of [convert_file],
    in any world, ends in the "No converter available for category" error. *)
Theorem no_converter_branch_unreachable :
  (forall c : Category,
     bool_decide (c = AUDIO) || bool_decide (c = VIDEO) ||
     bool_decide (c = IMAGE) ||
     bool_decide (c ∈ [DOCUMENT; SPREADSHEET; PRESENTATION]) = true) /\
  (forall on_path spawn i o v w c,
     fst (convert_file on_path spawn i o v w) <>
     inl (ConversionError (no_converter_msg c))).
Proof.
  split; [intros []; vm_compute; reflexivity|].
  intros on_path spawn i o v w c.
  destruct (fs w !! i) as [e|] eqn:Ei;
    [|rewrite (convert_file_missing _ _ _ _ _ _ Ei); discriminate].
  assert (H : is_Some (fs w !! i)) by (rewrite Ei; eauto).
  destruct (get_category i) as [ei|ci] eqn:Hi.
  { destruct (get_category_raises_ValueError i ei Hi) as [m ->].
    rewrite (convert_file_bad_input _ _ _ _ _ _ _ H Hi). discriminate. }
  destruct (get_category o) as [eo|co] eqn:Ho.
  { destruct (get_category_raises_ValueError o eo Ho) as [m ->].
    rewrite (convert_file_bad_output _ _ _ _ _ _ _ _ H Hi Ho). discriminate. }
  destruct (decide (ci = co)) as [<-|Hne].
  - rewrite (convert_file_routes _ _ _ _ _ _ _ H Hi Ho).
    destruct (invoker_of _ _ _ _ _ _ _) as [[e'|[]] w'] eqn:E; [|discriminate].
    simpl. intros [= ->].
    exact (invoker_not_no_converter on_path spawn ci i o v _ _ _ E c eq_refl).
  - rewrite (convert_file_mismatch _ _ _ _ _ _ _ _ H Hi Ho Hne). discriminate.
Qed.

(** ** Suffixes *)

Lemma rfind_dot_drop n i :
  Str.rfind_dot n = Some i ->
  exists r, Str.drop i n = String Str.dot r /\ Str.rfind_dot r = None.
Proof.
  revert i. induction n as [|c r0 IH]; simpl; [discriminate|]. intros i.
  destruct (Str.rfind_dot r0) as [j|] eqn:E.
  - intros [= <-]. simpl. now apply IH.
  - destruct (Ascii.eqb c Str.dot) eqn:Ec; [|discriminate].
    intros [= <-]. apply Ascii.eqb_eq in Ec. subst c. now exists r0.
Qed.

Lemma rfind_dot_none_lstrip r : Str.rfind_dot r = None -> Str.lstrip_dot r = r.
Proof.
  destruct r as [|c r]; simpl; [reflexivity|].
  destruct (Str.rfind_dot r); [discriminate|].
  now destruct (Ascii.eqb c Str.dot).
Qed.

(** A suffix is empty, or one dot followed by a dot-free extension. *)
Lemma suffix_shape p :
  PathLib.suffix p = "" \/
  exists r, PathLib.suffix p = String Str.dot r /\ Str.lstrip_dot r = r.
Proof.
  unfold PathLib.suffix, PathLib.suffix_at.
  destruct (Str.rfind_dot (PathLib.name p)) as [i|] eqn:E; [|now left].
  destruct (_ && _); [|now left]. right.
  destruct (rfind_dot_drop _ _ E) as [r [Hr Hn]].
  exists r. split; [exact Hr | now apply rfind_dot_none_lstrip].
Qed.

Lemma office_target_ext_suffix o :
  (PathLib.suffix o = "" /\ office_target_ext o = "") \/
  PathLib.suffix o = "." +:+ office_target_ext o.
Proof.
  unfold office_target_ext.
  destruct (suffix_shape o) as [->|[r [-> Hr]]]; [now left|right].
  simpl. now rewrite Hr.
Qed.

(** X6.  On the suffix of a path one separator is all there is to strip:
    [get_extension] is the suffix with one leading separator removed,
    lowercased, with a known alias replaced by its canonical spelling. *)
Lemma get_extension_one_separator p :
  get_extension p = normalize_one_separator (PathLib.suffix p).
Proof.
  unfold get_extension, normalize_one_separator.
  rewrite normalize_extension_unfold.
  destruct (suffix_shape p) as [->|[r [-> Hr]]]; [reflexivity|].
  simpl. now rewrite Hr.
Qed.

(** ** [convert_office] *)

Section OfficeSteps.

Variable on_path : string -> bool.
Variable spawn : list string -> gmap Path Entry -> Spawn.

Lemma convert_office_spawn_failed i o v w :
  on_path "soffice" = true ->
  spawn (office_cmd i o) (fs w) = SpawnFailed ->
  exists e,
    convert_office on_path spawn i o v w =
    (inl e, mkWorld (fs w) (trace w ++ office_prelude i o v)).
Proof.
  intros Hon Hsp.
  unfold convert_office, bind, check_tool_available, emit, ret, run_command,
    print_if, print, emit, try_except, subprocess_run, bind, ret, raise.
  rewrite Hon. cbn [negb fs trace].
  destruct v; cbn [fs trace]; rewrite Hsp; cbn [fs trace];
    unfold office_prelude; rewrite <- ?app_assoc; eexists; reflexivity.
Qed.

Lemma convert_office_exit_nonzero i o v w rc out err fs' :
  on_path "soffice" = true ->
  spawn (office_cmd i o) (fs w) = Exited rc out err fs' ->
  rc <> 0%Z ->
  exists e,
    convert_office on_path spawn i o v w =
    (inl e, mkWorld fs' (trace w ++ office_prelude i o v)).
Proof.
  intros Hon Hsp Hrc. apply Z.eqb_neq in Hrc.
  unfold convert_office, bind, check_tool_available, emit, ret, run_command,
    print_if, print, emit, try_except, subprocess_run, bind, ret, raise.
  rewrite Hon. cbn [negb fs trace].
  destruct v; cbn [fs trace]; rewrite Hsp; cbn [fs trace returncode];
    rewrite Hrc; cbn [negb];
    unfold office_prelude; rewrite <- ?app_assoc; eexists; reflexivity.
Qed.

(** After a clean exit, what is left of [convert_office] is the check for
    the expected artifact and the rename. *)
Lemma convert_office_exit_zero i o v w out err fs' :
  on_path "soffice" = true ->
  spawn (office_cmd i o) (fs w) = Exited 0 out err fs' ->
  convert_office on_path spawn i o v w =
  (let expected := office_expected_output i o in
   let w1 := mkWorld fs' (trace w ++ office_prelude i o v) in
   match fs' !! expected with
   | None =>
       (inl (ConversionError
               ("LibreOffice did not produce expected output file: " +:+
                PathLib.to_str expected)), w1)
   | Some _ =>
       if decide (expected = o) then (inr tt, w1)
       else rename expected o
              (mkWorld fs'
                 (trace w1 ++
                  (if v then [EvPrint ("Renaming " +:+ PathLib.to_str expected +:+
                                       " to " +:+ PathLib.to_str o)]
                   else [])))
   end).
Proof.
  intros Hon Hsp.
  unfold convert_office, bind, check_tool_available, emit, ret, run_command,
    print_if, print, emit, try_except, subprocess_run, bind, ret, raise, exists_.
  rewrite Hon. cbn [negb fs trace].
  destruct v; cbn [fs trace]; rewrite Hsp; cbn [fs trace returncode negb Z.eqb];
    unfold office_prelude; rewrite <- ?app_assoc; cbn [app];
    (destruct (fs' !! office_expected_output i o) as [e|] eqn:E;
     [ rewrite (bool_decide_eq_true_2 _ (ltac:(eauto) : is_Some (Some e)))
     | rewrite (bool_decide_eq_false_2 _ (ltac:(intros [? [=]]) : ¬ is_Some (@None Entry))) ];
     cbn [negb]; [|reflexivity]);
    (destruct (decide (office_expected_output i o = o)) as [Heq|Hne];
     [ rewrite (bool_decide_eq_true_2 _ Heq) | rewrite (bool_decide_eq_false_2 _ Hne) ];
     cbn [negb fs trace]; rewrite ?app_nil_r, <- ?app_assoc; cbn [app];
     reflexivity).
Qed.

End OfficeSteps.

Section OfficeLaws.

Variable on_path : string -> bool.
Variable spawn : list string -> gmap Path Entry -> Spawn.

Lemma runs_office_prelude i o v : runs (office_prelude i o v) = [office_cmd i o].
Proof. destruct v; reflexivity. Qed.

Lemma renames_office_prelude i o v : renames (office_prelude i o v) = [].
Proof. destruct v; reflexivity. Qed.

Lemma convert_office_tool_missing i o v w :
  on_path "soffice" = false ->
  exists e,
    convert_office on_path spawn i o v w =
    (inl e, mkWorld (fs w) (trace w ++ [EvWhich "soffice"])).
Proof.
  intros Hoff.
  unfold convert_office, bind, check_tool_available, emit, ret, raise.
  rewrite Hoff. eexists. reflexivity.
Qed.

(** Sufficient conditions for [convert_office] to return normally. *)
Lemma convert_office_succeeds i o v w out err fs' content :
  on_path "soffice" = true ->
  spawn (office_cmd i o) (fs w) = Exited 0 out err fs' ->
  fs' !! office_expected_output i o = Some (File content) ->
  fs' !! o <> Some Dir ->
  fst (convert_office on_path spawn i o v w) = inr tt.
Proof.
  intros Hon Hsp Hfile Hdir.
  rewrite (convert_office_exit_zero on_path spawn i o v w out err fs' Hon Hsp).
  cbv zeta. rewrite Hfile.
  destruct (decide (office_expected_output i o = o)); [reflexivity|].
  unfold rename. cbn [fs trace]. rewrite Hfile.
  destruct (fs' !! o) as [[c|]|]; try reflexivity. congruence.
Qed.

(** C3.  Suppose the tool leaves its artifact, a regular file, at
    [outdir / (input stem + "." + target extension)] and [convert_office]
    returns normally.  If that path differs from the requested output path,
    the artifact has been renamed: it is now at the requested path, the
    tool-produced path is vacant, and exactly one rename took place.  If the
    two paths coincide, the file system is as the tool left it and no
    rename took place. *)
Theorem convert_office_rename_law
    (i o : Path) (v : bool) (w : World)
    (rc : Z) (out err : string) (fs' : gmap Path Entry) (content : string) :
  spawn (office_cmd i o) (fs w) = Exited rc out err fs' ->
  fs' !! PathLib.truediv (PathLib.parent o)
           (PathLib.stem i +:+ "." +:+ Str.lstrip_dot (PathLib.suffix o))
    = Some (File content) ->
  fst (convert_office on_path spawn i o v w) = inr tt ->
  (PathLib.truediv (PathLib.parent o)
     (PathLib.stem i +:+ "." +:+ Str.lstrip_dot (PathLib.suffix o)) <> o ->
   fs (snd (convert_office on_path spawn i o v w)) =
     <[o := File content]> (delete (office_expected_output i o) fs') /\
   fs (snd (convert_office on_path spawn i o v w)) !! o = Some (File content) /\
   fs (snd (convert_office on_path spawn i o v w)) !! office_expected_output i o
     = None /\
   renames (trace (snd (convert_office on_path spawn i o v w))) =
     renames (trace w) ++ [(office_expected_output i o, o)]) /\
  (PathLib.truediv (PathLib.parent o)
     (PathLib.stem i +:+ "." +:+ Str.lstrip_dot (PathLib.suffix o)) = o ->
   fs (snd (convert_office on_path spawn i o v w)) = fs' /\
   fs (snd (convert_office on_path spawn i o v w)) !! o = Some (File content) /\
   renames (trace (snd (convert_office on_path spawn i o v w))) =
     renames (trace w)).
Proof.
  change (PathLib.truediv (PathLib.parent o)
            (PathLib.stem i +:+ "." +:+ Str.lstrip_dot (PathLib.suffix o)))
    with (office_expected_output i o).
  intros Hsp Hfile Hok.
  destruct (on_path "soffice") eqn:Hon;
    [|destruct (convert_office_tool_missing i o v w Hon) as [e He];
      rewrite He in Hok; discriminate].
  destruct (decide (rc = 0%Z)) as [->|Hrc];
    [|destruct (convert_office_exit_nonzero on_path spawn i o v w rc out err fs'
                  Hon Hsp Hrc) as [e He]; rewrite He in Hok; discriminate].
  revert Hok.
  rewrite (convert_office_exit_zero on_path spawn i o v w out err fs' Hon Hsp).
  cbv zeta. rewrite Hfile.
  destruct (decide (office_expected_output i o = o)) as [Heq|Hne].
  - intros _. split; [intros; contradiction|]. intros _. cbn [snd fs trace].
    split; [reflexivity|]. split; [now rewrite <- Heq at 1|].
    now rewrite renames_app, renames_office_prelude, app_nil_r.
  - unfold rename. cbn [fs trace]. rewrite Hfile.
    destruct (fs' !! o) as [[c|]|] eqn:Eo; cbn [fst snd fs trace];
      try discriminate; intros _; (split; [intros _|intros; contradiction]);
      (split; [reflexivity|]);
      (split; [apply lookup_insert_eq|]);
      (split; [rewrite lookup_insert_ne by congruence; apply lookup_delete_eq|]);
      rewrite !renames_app, renames_office_prelude, app_nil_r;
      destruct v; cbn; rewrite ?app_nil_r; reflexivity.
Qed.

(** C9.  The format argument of the one command [convert_office] runs is
    the output path's suffix without its dot and otherwise letter for
    letter, the artifact it then looks for and renames is named with that
    same text, and neither is lowercased or alias-resolved; classification
    works on the lowercased, alias-resolved form of that text. *)
Theorem convert_office_keeps_suffix_case
    (i o : Path) (v : bool) (w : World) :
  ((PathLib.suffix o = "" /\ Str.lstrip_dot (PathLib.suffix o) = "") \/
   PathLib.suffix o = "." +:+ Str.lstrip_dot (PathLib.suffix o)) /\
  get_extension o = alias_of (Str.lower (Str.lstrip_dot (PathLib.suffix o))) /\
  runs (trace (snd (convert_office on_path spawn i o v w))) =
    runs (trace w) ++
    (if on_path "soffice" then
       [[ "soffice"; "--headless"; "--convert-to";
          Str.lstrip_dot (PathLib.suffix o);
          "--outdir"; PathLib.to_str (PathLib.parent o); PathLib.to_str i ]]
     else []) /\
  (renames (trace (snd (convert_office on_path spawn i o v w))) =
     renames (trace w) \/
   renames (trace (snd (convert_office on_path spawn i o v w))) =
     renames (trace w) ++
     [(PathLib.truediv (PathLib.parent o)
         (PathLib.stem i +:+ "." +:+ Str.lstrip_dot (PathLib.suffix o)), o)]) /\
  (forall out err fs',
     on_path "soffice" = true ->
     spawn (office_cmd i o) (fs w) = Exited 0 out err fs' ->
     fs' !! PathLib.truediv (PathLib.parent o)
              (PathLib.stem i +:+ "." +:+ Str.lstrip_dot (PathLib.suffix o))
       = None ->
     fst (convert_office on_path spawn i o v w) =
       inl (ConversionError
              ("LibreOffice did not produce expected output file: " +:+
               PathLib.to_str
                 (PathLib.truediv (PathLib.parent o)
                    (PathLib.stem i +:+ "." +:+
                     Str.lstrip_dot (PathLib.suffix o)))))).
Proof.
  change (PathLib.truediv (PathLib.parent o)
            (PathLib.stem i +:+ "." +:+ Str.lstrip_dot (PathLib.suffix o)))
    with (office_expected_output i o).
  change [ "soffice"; "--headless"; "--convert-to";
           Str.lstrip_dot (PathLib.suffix o);
           "--outdir"; PathLib.to_str (PathLib.parent o); PathLib.to_str i ]
    with (office_cmd i o).
  split; [apply office_target_ext_suffix|].
  split; [reflexivity|].
  assert (Htrace :
    runs (trace (snd (convert_office on_path spawn i o v w))) =
      runs (trace w) ++ (if on_path "soffice" then [office_cmd i o] else []) /\
    (renames (trace (snd (convert_office on_path spawn i o v w))) =
       renames (trace w) \/
     renames (trace (snd (convert_office on_path spawn i o v w))) =
       renames (trace w) ++ [(office_expected_output i o, o)])).
  { destruct (on_path "soffice") eqn:Hon.
    2:{ destruct (convert_office_tool_missing i o v w Hon) as [e ->].
        cbn [snd trace]. rewrite runs_app, renames_app. cbn.
        rewrite !app_nil_r. auto. }
    destruct (spawn (office_cmd i o) (fs w)) as [|rc out err fs'] eqn:Hsp.
    - destruct (convert_office_spawn_failed on_path spawn i o v w Hon Hsp) as [e ->].
      cbn [snd trace].
      rewrite runs_app, runs_office_prelude, renames_app, renames_office_prelude,
        app_nil_r. auto.
    - destruct (decide (rc = 0%Z)) as [->|Hrc].
      + rewrite (convert_office_exit_zero on_path spawn i o v w out err fs' Hon Hsp).
        cbv zeta.
        destruct (fs' !! office_expected_output i o) as [e|];
          [|cbn [snd trace];
            rewrite runs_app, runs_office_prelude, renames_app,
              renames_office_prelude, app_nil_r; auto].
        destruct (decide (office_expected_output i o = o));
          [cbn [snd trace];
           rewrite runs_app, runs_office_prelude, renames_app,
             renames_office_prelude, app_nil_r; auto|].
        unfold rename. cbn [fs trace].
        destruct (fs' !! office_expected_output i o) as [[c|]|],
                 (fs' !! o) as [[c'|]|]; cbn [snd trace];
          rewrite !runs_app, !renames_app, runs_office_prelude,
            renames_office_prelude;
          destruct v; cbn; rewrite ?app_nil_r; auto.
      + destruct (convert_office_exit_nonzero on_path spawn i o v w rc out err fs'
                    Hon Hsp Hrc) as [e ->].
        cbn [snd trace].
        rewrite runs_app, runs_office_prelude, renames_app,
          renames_office_prelude, app_nil_r. auto. }
  destruct Htrace as [Hruns Hren].
  split; [exact Hruns|]. split; [exact Hren|].
  intros out err fs' Hon Hsp Hnone.
  rewrite (convert_office_exit_zero on_path spawn i o v w out err fs' Hon Hsp).
  cbv zeta. now rewrite Hnone.
Qed.

End OfficeLaws.

Lemma convert_office_rename_law_witness :
  (fs (snd (convert_office Demo.all_tools Demo.soffice_like
              Demo.report_docx Demo.final_odt false Demo.w0)) !! Demo.final_odt
     = Some (File "converted:/work/report.docx") /\
   fs (snd (convert_office Demo.all_tools Demo.soffice_like
              Demo.report_docx Demo.final_odt false Demo.w0)) !! Demo.report_odt
     = None /\
   renames (trace (snd (convert_office Demo.all_tools Demo.soffice_like
              Demo.report_docx Demo.final_odt false Demo.w0)))
     = [(Demo.report_odt, Demo.final_odt)]) /\
  (fs (snd (convert_office Demo.all_tools Demo.soffice_like
              Demo.report_docx Demo.report_odt false Demo.w0)) !! Demo.report_odt
     = Some (File "converted:/work/report.docx") /\
   renames (trace (snd (convert_office Demo.all_tools Demo.soffice_like
              Demo.report_docx Demo.report_odt false Demo.w0)))
     = []).
Proof.
  split.
  - destruct (convert_office_rename_law Demo.all_tools Demo.soffice_like
                Demo.report_docx Demo.final_odt false Demo.w0
                0 "" "" (<[Demo.report_odt := File "converted:/work/report.docx"]> Demo.fs0)
                "converted:/work/report.docx")
      as [Hdiff _].
    + vm_compute. reflexivity.
    + vm_compute. reflexivity.
    + vm_compute. reflexivity.
    + destruct Hdiff as (_ & A & B & C); [vm_compute; discriminate|].
      split; [exact A|]. split; [exact B | exact C].
  - destruct (convert_office_rename_law Demo.all_tools Demo.soffice_like
                Demo.report_docx Demo.report_odt false Demo.w0
                0 "" "" (<[Demo.report_odt := File "converted:/work/report.docx"]> Demo.fs0)
                "converted:/work/report.docx")
      as [_ Hsame].
    + vm_compute. reflexivity.
    + vm_compute. reflexivity.
    + vm_compute. reflexivity.
    + destruct Hsame as (_ & A & C); [vm_compute; reflexivity|].
      split; [exact A | exact C].
Defined.

Lemma convert_office_keeps_suffix_case_witness :
  PathLib.suffix Demo.upper_odt = ".ODT" /\
  get_category Demo.upper_odt = inr DOCUMENT /\
  get_extension Demo.upper_odt = "odt" /\
  runs (trace (snd (convert_office Demo.all_tools Demo.soffice_like
                      Demo.report_docx Demo.upper_odt false Demo.w0))) =
    [[ "soffice"; "--headless"; "--convert-to"; "ODT";
       "--outdir"; "/work"; "/work/report.docx" ]] /\
  PathLib.to_str
    (PathLib.truediv (PathLib.parent Demo.upper_odt)
       (PathLib.stem Demo.report_docx +:+ "." +:+
        Str.lstrip_dot (PathLib.suffix Demo.upper_odt))) = "/work/report.ODT".
Proof.
  destruct (convert_office_keeps_suffix_case Demo.all_tools Demo.soffice_like
              Demo.report_docx Demo.upper_odt false Demo.w0)
    as (Hshape & Hext & Hruns & _).
  split; [vm_compute; reflexivity|].
  split; [vm_compute; reflexivity|].
  split; [rewrite Hext; vm_compute; reflexivity|].
  split; [rewrite Hruns; vm_compute; reflexivity|].
  vm_compute. reflexivity.
Defined.

(** ** Worked examples *)

Example get_category_alias :
  get_category_str "a.JPEG" = get_category_str "a.jpg".
Proof. reflexivity. Qed.

Example supported_formats_text_value :
  supported_formats_text =
  "avif, csv, doc, docx, gif, heic, icns, jpeg, jpg, m4a, mov, mp3, mp4, odp, ods, odt, ppt, pptx, rtf, txt, wav, webp, xls, xlsm, xlsx".
Proof. vm_compute. reflexivity. Qed.

Example suffix_examples :
  map (fun s => PathLib.suffix (PathLib.of_str s))
      ["/tmp/a.tar.GZ"; ".bashrc"; "a."; "a..b"; "dir.d/file"; "/"; "x/./y.txt/"]
  = [".GZ"; ""; ""; ".b"; ""; ""; ".txt"].
Proof. vm_compute. reflexivity. Qed.

Example demo_office_rename :
  let '(r, w) := convert_file Demo.all_tools Demo.soffice_like
                   Demo.report_docx Demo.final_odt false Demo.w0 in
  r = inr tt /\
  fs w !! Demo.final_odt = Some (File "converted:/work/report.docx") /\
  fs w !! Demo.report_odt = None /\
  renames (trace w) = [(Demo.report_odt, Demo.final_odt)].
Proof. vm_compute. repeat split; reflexivity. Qed.

(** [report.docx] to [report.odt]: the tool's artifact is already at the
    requested path, nothing is renamed. *)
Example demo_office_same_stem :
  let '(r, w) := convert_file Demo.all_tools Demo.soffice_like
                   Demo.report_docx Demo.report_odt false Demo.w0 in
  r = inr tt /\
  fs w !! Demo.report_odt = Some (File "converted:/work/report.docx") /\
  renames (trace w) = [] /\
  runs (trace w) = [[ "soffice"; "--headless"; "--convert-to"; "odt";
                      "--outdir"; "/work"; "/work/report.docx" ]].
Proof. vm_compute. repeat split; reflexivity. Qed.

(** [clip.mov] to [clip.mp4] with no tool on the search path. *)
Example demo_missing_ffmpeg :
  convert_file Demo.no_tools Demo.soffice_like
    Demo.clip_mov Demo.clip_mp4 false Demo.w0 =
  (inl (ToolNotFoundError
          "FFmpeg is required for video conversion. Please install it."),
   mkWorld Demo.fs0 [EvWhich "ffmpeg"]).
Proof. vm_compute. reflexivity. Qed.

(** The command line built for an audio conversion. *)
Example demo_audio_command :
  runs (trace (snd (convert_file Demo.all_tools Demo.soffice_like
                      Demo.song_mp3 (PathLib.of_str "/work/song.WAV") false
                      Demo.w0))) =
  [[ "ffmpeg"; "-i"; "/work/song.mp3"; "-y"; "-codec:a"; "pcm_s16le";
     "/work/song.WAV" ]].
Proof. vm_compute. reflexivity. Qed.

(** The docstring examples of [categories.py]. *)
Example docstring_examples :
  normalize_extension ".JPG" = "jpg" /\
  normalize_extension "jpeg" = "jpg" /\
  get_extension (PathLib.of_str "photo.JPEG") = "jpg" /\
  get_extension (PathLib.of_str "document.docx") = "docx".
Proof. vm_compute. repeat split; reflexivity. Qed.

(** [song.mp3] to [photo.jpg] is refused before anything is run. *)
Example demo_mismatch_message :
  fst (convert_file Demo.all_tools Demo.soffice_like
         Demo.song_mp3 Demo.photo_jpg false Demo.w0) =
  inl (CategoryMismatchError
         ("Cannot convert between different categories." +:+ Str.nl +:+
          "Input category: audio" +:+ Str.nl +:+
          "Output category: image" +:+ Str.nl +:+
          "Only conversions within the same category are supported.")).
Proof. vm_compute. reflexivity. Qed.

(** A failing tool: the exit code and the captured error text are in the
    message. *)
Example demo_exit_code_message :
  fst (run_command (fun _ f => Exited (-9) "" "killed" f)
         ["ffmpeg"; "-version"] false "FFmpeg" Demo.w0) =
  inl (ConversionError
         ("FFmpeg failed with exit code -9" +:+ Str.nl +:+
          "Error output:" +:+ Str.nl +:+ "killed")).
Proof. vm_compute. reflexivity. Qed.

(** * Further properties *)

(** ** The extension table and its listings *)

Lemma table_keys_NoDup : NoDup (dict_keys EXTENSION_TO_CATEGORY).
Proof. apply (bool_decide_unpack _). vm_compute. exact I. Qed.

Lemma dict_get_In_NoDup {V : Type} (d : list (string * V)) k v :
  NoDup (dict_keys d) -> (k, v) ∈ d -> dict_get d k = Some v.
Proof.
  unfold dict_keys. induction d as [|[k' v'] d IH]; simpl.
  - intros _ H. inversion H.
  - intros Hnd Hin. apply NoDup_cons in Hnd as [Hfresh Hnd].
    destruct (String.eqb k' k) eqn:E.
    + apply String.eqb_eq in E. subst k'.
      apply elem_of_cons in Hin as [[= ->]|Hin]; [reflexivity|].
      exfalso. apply Hfresh, list_elem_of_In, in_map_iff.
      exists (k, v). split; [reflexivity | now apply list_elem_of_In].
    + apply String.eqb_neq in E.
      apply elem_of_cons in Hin as [[= -> ->]|Hin]; [congruence|].
      now apply IH.
Qed.

Lemma sorted_elem x l : x ∈ Str.sorted l <-> x ∈ l.
Proof. now rewrite sorted_perm. Qed.

Lemma keys_filter_elem {V : Type} (f : string * V -> bool) d x :
  x ∈ dict_keys (List.filter f d) <-> exists v, (x, v) ∈ d /\ f (x, v) = true.
Proof.
  unfold dict_keys. rewrite list_elem_of_In, in_map_iff. split.
  - intros [[k v] [Hk Hin]]. simpl in Hk. subst k.
    apply filter_In in Hin as [Hin Hf].
    exists v. split; [now apply list_elem_of_In | exact Hf].
  - intros [v [Hin Hf]]. exists (x, v). split; [reflexivity|].
    apply filter_In. split; [now apply list_elem_of_In | exact Hf].
Qed.

(** X1.  Without a category, [get_supported_extensions] lists the keys of
    the table, each once, in ascending order. *)
Theorem get_supported_extensions_all :
  Sorted leb_rel (get_supported_extensions None) /\
  NoDup (get_supported_extensions None) /\
  forall x, x ∈ get_supported_extensions None <->
            is_Some (dict_get EXTENSION_TO_CATEGORY x).
Proof.
  unfold get_supported_extensions. split; [apply sorted_Sorted|]. split.
  - rewrite sorted_perm. apply NoDup_remove_dups.
  - intros x. unfold Str.distinct.
    now rewrite sorted_elem, elem_of_remove_dups, dict_get_keys.
Qed.

(** X2.  For a category [c], [get_supported_extensions] is in ascending
    order and lists exactly the extensions that [get_category] maps to [c]:
    a path is classified as [c] if and only if its normalised extension is
    in the listing for [c]. *)
Theorem get_supported_extensions_matches_get_category (c : Category) :
  Sorted leb_rel (get_supported_extensions (Some c)) /\
  forall p : Path,
    get_category p = inr c <->
    get_extension p ∈ get_supported_extensions (Some c).
Proof.
  unfold get_supported_extensions. split; [apply sorted_Sorted|].
  intros p. rewrite sorted_elem, keys_filter_elem. unfold get_category.
  split.
  - destruct (dict_get EXTENSION_TO_CATEGORY (get_extension p)) as [c'|] eqn:E;
      [|discriminate].
    intros [= ->]. exists c. split; [now apply dict_get_Some|].
    now apply bool_decide_eq_true_2.
  - intros [v [Hin Hf]]. apply bool_decide_eq_true_1 in Hf. simpl in Hf. subst v.
    now rewrite (dict_get_In_NoDup _ _ _ table_keys_NoDup Hin).
Qed.

(** ** Normal forms *)

Lemma lstrip_lower_commute s :
  Str.lstrip_dot (Str.lower s) = Str.lower (Str.lstrip_dot s).
Proof.
  induction s as [|c r IH]; simpl; [reflexivity|].
  rewrite lower_char_dot. now destruct (Ascii.eqb c Str.dot).
Qed.

Lemma normalize_extension_lower_arg ext :
  normalize_extension (Str.lower ext) = normalize_extension ext.
Proof.
  rewrite !normalize_extension_unfold.
  now rewrite lstrip_lower_commute, lower_idem.
Qed.

(** X3.  [normalize_extension] returns a canonical spelling: lowercase,
    without a leading separator, and never a key of the alias table.  In
    particular it never returns [jpeg], so the [jpeg] row of the extension
    table is never the one that classifies a path. *)
Theorem normalize_extension_canonical (ext : string) :
  Str.lower (normalize_extension ext) = normalize_extension ext /\
  Str.lstrip_dot (normalize_extension ext) = normalize_extension ext /\
  dict_get EXTENSION_ALIASES (normalize_extension ext) = None /\
  normalize_extension ext <> "jpeg".
Proof.
  split; [apply normalize_extension_lower|].
  split; [apply lstrip_dot_fixed, normalize_extension_no_leading|].
  assert (H : normalize_extension ext <> "jpeg").
  { rewrite normalize_extension_unfold, alias_of_unfold.
    destruct (String.eqb "jpeg" _) eqn:E; [discriminate|].
    apply String.eqb_neq in E. congruence. }
  split; [|exact H].
  unfold EXTENSION_ALIASES, dict_get.
  destruct (String.eqb "jpeg" (normalize_extension ext)) eqn:E; [|reflexivity].
  apply String.eqb_eq in E. congruence.
Qed.

(** X4.  Classification ignores letter case: two paths whose suffixes agree
    after lowercasing get the same result from [get_category], be it a
    category or the error. *)
Theorem get_category_ignores_case (p q : Path) :
  Str.lower (PathLib.suffix p) = Str.lower (PathLib.suffix q) ->
  get_extension p = get_extension q /\ get_category p = get_category q.
Proof.
  intros H.
  assert (He : get_extension p = get_extension q).
  { unfold get_extension.
    rewrite <- (normalize_extension_lower_arg (PathLib.suffix p)), H.
    apply normalize_extension_lower_arg. }
  split; [exact He|]. unfold get_category. now rewrite He.
Qed.

Lemma get_category_ignores_case_witness :
  get_extension (PathLib.of_str "/a/Track.Mp3") =
    get_extension (PathLib.of_str "b/other.mP3") /\
  get_category (PathLib.of_str "/a/Track.Mp3") =
    get_category (PathLib.of_str "b/other.mP3").
Proof.
  apply (get_category_ignores_case (PathLib.of_str "/a/Track.Mp3")
                                   (PathLib.of_str "b/other.mP3")).
  vm_compute. reflexivity.
Defined.

(** X5.  A path whose suffix is [.jpeg] in any letter case is classified
    through the canonical spelling [jpg], as an image. *)
Theorem get_category_jpeg_alias (p : Path) :
  Str.lower (PathLib.suffix p) = ".jpeg" ->
  get_extension p = "jpg" /\ get_category p = inr IMAGE.
Proof.
  intros H.
  assert (He : get_extension p = "jpg").
  { unfold get_extension.
    rewrite <- normalize_extension_lower_arg, H. reflexivity. }
  split; [exact He|]. unfold get_category. now rewrite He.
Qed.

Lemma get_category_jpeg_alias_witness :
  get_extension (PathLib.of_str "/photos/cat.JPEG") = "jpg" /\
  get_category (PathLib.of_str "/photos/cat.JPEG") = inr IMAGE.
Proof.
  apply (get_category_jpeg_alias (PathLib.of_str "/photos/cat.JPEG")).
  vm_compute. reflexivity.
Defined.

(** ** String append *)

Lemma str_app_cons (x : ascii) (a b : string) :
  String x a +:+ b = String x (a +:+ b).
Proof. reflexivity. Qed.

Lemma str_app_assoc (a b c : string) : (a +:+ b) +:+ c = a +:+ (b +:+ c).
Proof.
  induction a as [|x a IH]; [reflexivity|].
  rewrite !str_app_cons. now f_equal.
Qed.

Lemma str_app_nil_r (a : string) : a +:+ "" = a.
Proof.
  induction a as [|x a IH]; [reflexivity|].
  rewrite str_app_cons. now f_equal.
Qed.

Lemma str_app_length (a b : string) :
  String.length (a +:+ b) = (String.length a + String.length b)%nat.
Proof.
  induction a as [|x a IH]; [reflexivity|].
  rewrite str_app_cons. cbn [String.length]. now rewrite IH.
Qed.

Lemma str_app_inv_tail (a b c : string) : a +:+ c = b +:+ c -> a = b.
Proof.
  revert b. induction a as [|x a IH]; intros [|y b] H.
  - reflexivity.
  - apply (f_equal String.length) in H.
    rewrite !str_app_length in H. cbn [String.length] in H. lia.
  - apply (f_equal String.length) in H.
    rewrite !str_app_length in H. cbn [String.length] in H. lia.
  - rewrite !str_app_cons in H. injection H as -> H. f_equal. now apply IH.
Qed.

(** ** [run_command] *)

Section RunCommand.

Variable on_path : string -> bool.
Variable spawn : list string -> gmap Path Entry -> Spawn.


Lemma run_command_spawn_failed cmd v tool w :
  spawn cmd (fs w) = SpawnFailed ->
  run_command spawn cmd v tool w =
  (inl (ToolNotFoundError
          (tool +:+ " not found in PATH. Please install it and ensure it's available.")),
   mkWorld (fs w) (trace w ++ run_prelude cmd v)).
Proof.
  intros Hsp.
  unfold run_command, bind, print_if, print, emit, ret, try_except,
    subprocess_run, raise, run_prelude.
  destruct v; cbn [fs trace]; rewrite Hsp; cbn [fs trace];
    rewrite <- ?app_assoc; reflexivity.
Qed.

Lemma run_command_exit_zero cmd v tool w out err fs' :
  spawn cmd (fs w) = Exited 0 out err fs' ->
  run_command spawn cmd v tool w =
  (inr tt, mkWorld fs' (trace w ++ run_prelude cmd v)).
Proof.
  intros Hsp.
  unfold run_command, bind, print_if, print, emit, ret, try_except,
    subprocess_run, raise, run_prelude.
  destruct v; cbn [fs trace]; rewrite Hsp; cbn [fs trace returncode negb Z.eqb];
    rewrite <- ?app_assoc; reflexivity.
Qed.

Lemma run_command_exit_nonzero cmd v tool w rc out err fs' :
  spawn cmd (fs w) = Exited rc out err fs' ->
  rc <> 0%Z ->
  exists rest,
    run_command spawn cmd v tool w =
    (inl (ConversionError
            (tool +:+ " failed with exit code " +:+ pretty rc +:+ rest)),
     mkWorld fs' (trace w ++ run_prelude cmd v)) /\
    (v = false -> err = "" -> rest = "").
Proof.
  intros Hsp Hrc. apply Z.eqb_neq in Hrc.
  unfold run_command, bind, print_if, print, emit, ret, try_except,
    subprocess_run, raise, run_prelude.
  assert (Happ : forall a b c d : string,
             (a +:+ b +:+ c) +:+ d = a +:+ b +:+ c +:+ d).
  { intros a b c d. now rewrite !str_app_assoc. }
  assert (Hnil : forall a b c : string, a +:+ b +:+ c = a +:+ b +:+ c +:+ "").
  { intros a b c. now rewrite str_app_nil_r. }
  destruct v; cbn [fs trace]; rewrite Hsp; cbn [fs trace returncode stderr stdout];
    rewrite Hrc; cbn [negb orb andb]; rewrite <- ?app_assoc.
  - destruct (truthy out); eexists; (split; [|discriminate]);
      rewrite ?Happ; reflexivity.
  - destruct (truthy err) eqn:Et; eexists.
    + split; [rewrite ?Happ; reflexivity|].
      intros _ ->. discriminate Et.
    + split; [rewrite Hnil; reflexivity | reflexivity].
Qed.


End RunCommand.

(** ** The FFmpeg and ImageMagick invokers *)






Section Media.

Variable on_path : string -> bool.
Variable spawn : list string -> gmap Path Entry -> Spawn.




Lemma convert_audio_rejects i o v w :
  on_path "ffmpeg" = true ->
  String.eqb (Str.lstrip_dot (Str.lower (PathLib.suffix o))) "mp3" = false ->
  String.eqb (Str.lstrip_dot (Str.lower (PathLib.suffix o))) "wav" = false ->
  String.eqb (Str.lstrip_dot (Str.lower (PathLib.suffix o))) "m4a" = false ->
  convert_audio on_path spawn i o v w =
  (inl (ConversionError
          ("Unsupported audio output format: " +:+
           Str.lstrip_dot (Str.lower (PathLib.suffix o)))),
   probed "ffmpeg" w).
Proof.
  intros Hon H1 H2 H3.
  unfold convert_audio, bind at 1 2, check_tool_available, bind, emit, ret.
  rewrite Hon. cbn [negb]. now rewrite H1, H2, H3.
Qed.

Lemma convert_video_rejects i o v w :
  on_path "ffmpeg" = true ->
  String.eqb (Str.lstrip_dot (Str.lower (PathLib.suffix o))) "mp4" = false ->
  String.eqb (Str.lstrip_dot (Str.lower (PathLib.suffix o))) "mov" = false ->
  convert_video on_path spawn i o v w =
  (inl (ConversionError
          ("Unsupported video output format: " +:+
           Str.lstrip_dot (Str.lower (PathLib.suffix o)))),
   probed "ffmpeg" w).
Proof.
  intros Hon H1 H2.
  unfold convert_video, bind at 1 2, check_tool_available, bind, emit, ret.
  rewrite Hon. cbn [negb]. now rewrite H1, H2.
Qed.

End Media.

Section MediaLaws.

Variable on_path : string -> bool.
Variable spawn : list string -> gmap Path Entry -> Spawn.

(** Whatever the process does, [run_command] adds its prelude to the trace
    and nothing else. *)
Lemma run_command_trace cmd v tool w :
  trace (snd (run_command spawn cmd v tool w)) = trace w ++ run_prelude cmd v.
Proof.
  destruct (spawn cmd (fs w)) as [|rc out err fs'] eqn:Hsp.
  - now rewrite (run_command_spawn_failed spawn cmd v tool w Hsp).
  - destruct (Z.eq_dec rc 0%Z) as [->|Hrc].
    + now rewrite (run_command_exit_zero spawn cmd v tool w out err fs' Hsp).
    + destruct (run_command_exit_nonzero spawn cmd v tool w rc out err fs' Hsp Hrc)
        as [rest [-> _]]. reflexivity.
Qed.

Lemma runs_run_prelude cmd v : runs (run_prelude cmd v) = [cmd].
Proof. destruct v; reflexivity. Qed.

Lemma renames_run_prelude cmd v : renames (run_prelude cmd v) = [].
Proof. destruct v; reflexivity. Qed.

Lemma probes_run_prelude cmd v : probes (run_prelude cmd v) = [].
Proof. destruct v; reflexivity. Qed.






(** X9.  Called directly with an output extension outside its codec table,
    an FFmpeg invoker whose tool resolves raises [ConversionError] naming
    the lowercased extension, and does so without running anything: the
    file system is untouched and the only event is the lookup. *)
Theorem ffmpeg_invokers_reject_foreign_extension
    (i o : Path) (v : bool) (w : World) :
  on_path "ffmpeg" = true ->
  (Str.lstrip_dot (Str.lower (PathLib.suffix o)) ∉ ["mp3"; "wav"; "m4a"] ->
   convert_audio on_path spawn i o v w =
     (inl (ConversionError
             ("Unsupported audio output format: " +:+
              Str.lstrip_dot (Str.lower (PathLib.suffix o)))),
      mkWorld (fs w) (trace w ++ [EvWhich "ffmpeg"]))) /\
  (Str.lstrip_dot (Str.lower (PathLib.suffix o)) ∉ ["mp4"; "mov"] ->
   convert_video on_path spawn i o v w =
     (inl (ConversionError
             ("Unsupported video output format: " +:+
              Str.lstrip_dot (Str.lower (PathLib.suffix o)))),
      mkWorld (fs w) (trace w ++ [EvWhich "ffmpeg"]))).
Proof.
  intros Hon. split; intros Hext.
  - apply (convert_audio_rejects on_path spawn i o v w Hon);
      apply String.eqb_neq; intros E; apply Hext; rewrite E; set_solver.
  - apply (convert_video_rejects on_path spawn i o v w Hon);
      apply String.eqb_neq; intros E; apply Hext; rewrite E; set_solver.
Qed.

End MediaLaws.


Lemma ffmpeg_invokers_reject_foreign_extension_witness :
  convert_audio Demo.all_tools Demo.soffice_like
    Demo.song_mp3 Demo.song_flac false Demo.w0 =
    (inl (ConversionError
            ("Unsupported audio output format: " +:+
             Str.lstrip_dot (Str.lower (PathLib.suffix Demo.song_flac)))),
     mkWorld (fs Demo.w0) (trace Demo.w0 ++ [EvWhich "ffmpeg"])) /\
  convert_video Demo.all_tools Demo.soffice_like
    Demo.song_mp3 Demo.song_flac false Demo.w0 =
    (inl (ConversionError
            ("Unsupported video output format: " +:+
             Str.lstrip_dot (Str.lower (PathLib.suffix Demo.song_flac)))),
     mkWorld (fs Demo.w0) (trace Demo.w0 ++ [EvWhich "ffmpeg"])).
Proof.
  destruct (ffmpeg_invokers_reject_foreign_extension
              Demo.all_tools Demo.soffice_like
              Demo.song_mp3 Demo.song_flac false Demo.w0 eq_refl) as [Ha Hv].
  split.
  - apply Ha. apply (bool_decide_unpack _). vm_compute. exact I.
  - apply Hv. apply (bool_decide_unpack _). vm_compute. exact I.
Defined.

(** ** How much a call does *)

Section Within.

Lemma within_weaken {A} bp br bn bp' br' bn' (m : M A) :
  within bp br bn m ->
  (bp <= bp')%nat -> (br <= br')%nat -> (bn <= bn')%nat ->
  within bp' br' bn' m.
Proof.
  intros Hm ? ? ? w. destruct (Hm w) as (evs & Ht & ? & ? & ?).
  exists evs. repeat split; [exact Ht|lia..].
Qed.

Lemma within_still {A} (m : M A) :
  (forall w, snd (m w) = w) -> within 0 0 0 m.
Proof.
  intros H w. exists []. rewrite H, app_nil_r. simpl. repeat split; lia.
Qed.

Lemma within_ret {A} (a : A) : within 0 0 0 (ret a).
Proof. now apply within_still. Qed.

Lemma within_raise {A} (e : exn) : within 0 0 0 (@raise A e).
Proof. now apply within_still. Qed.

Lemma within_lift {A} (r : exn + A) : within 0 0 0 (lift r).
Proof. now apply within_still. Qed.

Lemma within_exists p : within 0 0 0 (exists_ p).
Proof. now apply within_still. Qed.

Lemma within_print_if v line : within 0 0 0 (print_if v line).
Proof.
  destruct v; [|apply within_ret].
  intros w. exists [EvPrint line]. simpl. repeat split; lia.
Qed.

Lemma within_bind {A B} bp1 br1 bn1 bp2 br2 bn2 (m : M A) (k : A -> M B) :
  within bp1 br1 bn1 m ->
  (forall a, within bp2 br2 bn2 (k a)) ->
  within (bp1 + bp2) (br1 + br2) (bn1 + bn2) (bind m k).
Proof.
  intros Hm Hk w. unfold bind.
  destruct (Hm w) as (e1 & Ht1 & ? & ? & ?).
  destruct (m w) as [[e|a] w1]; simpl in *.
  - exists e1. repeat split; [exact Ht1|lia..].
  - destruct (Hk a w1) as (e2 & Ht2 & ? & ? & ?).
    exists (e1 ++ e2). rewrite Ht2, Ht1, <- app_assoc.
    rewrite probes_app, runs_app, renames_app, !length_app.
    repeat split; lia.
Qed.

Lemma within_try_except {A} bp1 br1 bn1 bp2 br2 bn2
    (m : M A) (h : exn -> option (M A)) :
  within bp1 br1 bn1 m ->
  (forall e k, h e = Some k -> within bp2 br2 bn2 k) ->
  within (bp1 + bp2) (br1 + br2) (bn1 + bn2) (try_except m h).
Proof.
  intros Hm Hh w. unfold try_except.
  destruct (Hm w) as (e1 & Ht1 & ? & ? & ?).
  destruct (m w) as [[e|a] w1]; simpl in *;
    [|exists e1; repeat split; [exact Ht1|lia..]].
  destruct (h e) as [k|] eqn:E; simpl;
    [|exists e1; repeat split; [exact Ht1|lia..]].
  destruct (Hh e k E w1) as (e2 & Ht2 & ? & ? & ?).
  exists (e1 ++ e2). rewrite Ht2, Ht1, <- app_assoc.
  rewrite probes_app, runs_app, renames_app, !length_app.
  repeat split; lia.
Qed.

Lemma within_rename src dst : within 0 0 1 (rename src dst).
Proof.
  intros w. unfold rename.
  destruct (fs w !! src) as [[c|]|], (fs w !! dst) as [[c'|]|]; cbn [snd trace];
    first [ exists []; rewrite app_nil_r; simpl; repeat split; lia
          | exists [EvRename src dst]; simpl; repeat split; lia ].
Qed.

Variable on_path : string -> bool.
Variable spawn : list string -> gmap Path Entry -> Spawn.

Lemma within_check_tool_available tool :
  within 1 0 0 (check_tool_available on_path tool).
Proof. intros w. exists [EvWhich tool]. simpl. repeat split; lia. Qed.

Lemma within_run_command cmd v tool : within 0 1 0 (run_command spawn cmd v tool).
Proof.
  intros w. exists (run_prelude cmd v). rewrite run_command_trace.
  rewrite probes_run_prelude, runs_run_prelude, renames_run_prelude. simpl.
  repeat split; lia.
Qed.

Lemma within_invoker c i o v :
  within 1 1 (match backend_of c with Office => 1 | _ => 0 end)
    (invoker_of on_path spawn c i o v).
Proof.
  assert (Hoffice : within 1 1 1 (convert_office on_path spawn i o v)).
  { unfold convert_office.
    apply (within_bind 1 0 0 0 1 1); [apply within_check_tool_available|].
    intros a. destruct (negb a);
      [eapply within_weaken; [apply within_raise|lia..]|].
    apply (within_bind 0 1 0 0 0 1); [apply within_run_command|]. intros _.
    apply (within_bind 0 0 0 0 0 1); [apply within_exists|]. intros b.
    destruct (negb b); [eapply within_weaken; [apply within_raise|lia..]|].
    destruct (negb _); [|eapply within_weaken; [apply within_ret|lia..]].
    apply (within_bind 0 0 0 0 0 1); [apply within_print_if|]. intros _.
    apply within_rename. }
  destruct c; simpl; try exact Hoffice.
  - unfold convert_audio.
    apply (within_bind 1 0 0 0 1 0); [apply within_check_tool_available|].
    intros a. destruct (negb a);
      [eapply within_weaken; [apply within_raise|lia..]|].
    apply (within_bind 0 0 0 0 1 0); [|intros; apply within_run_command].
    repeat (destruct (String.eqb _ _); [apply within_ret|]). apply within_raise.
  - unfold convert_image.
    apply (within_bind 1 0 0 0 1 0); [apply within_check_tool_available|].
    intros a. destruct (negb a);
      [eapply within_weaken; [apply within_raise|lia..]|].
    apply within_run_command.
  - unfold convert_video.
    apply (within_bind 1 0 0 0 1 0); [apply within_check_tool_available|].
    intros a. destruct (negb a);
      [eapply within_weaken; [apply within_raise|lia..]|].
    apply (within_bind 0 0 0 0 1 0); [|intros; apply within_run_command].
    repeat (destruct (String.eqb _ _); [apply within_ret|]). apply within_raise.
Qed.

(** X10.  One call of [convert_file] looks up at most one tool, starts at
    most one process and performs at most one rename: nothing is retried.
    Each invoker keeps the same bounds and, outside the office categories,
    never renames. *)
Theorem convert_file_does_nothing_twice (i o : Path) (v : bool) :
  within 1 1 1 (convert_file on_path spawn i o v) /\
  forall c, within 1 1 (match backend_of c with Office => 1 | _ => 0 end)
              (invoker_of on_path spawn c i o v).
Proof.
  split; [|intros c; apply within_invoker].
  unfold convert_file.
  apply (within_bind 0 0 0 1 1 1); [apply within_exists|]. intros found.
  destruct (negb found); [eapply within_weaken; [apply within_raise|lia..]|].
  assert (Hclass : forall q p, within 0 0 0 (classify q p)).
  { intros q p. unfold classify.
    apply (within_try_except 0 0 0 0 0 0); [apply within_lift|].
    intros e k. destruct e; intros [= <-]. apply within_raise. }
  apply (within_bind 0 0 0 1 1 1); [apply Hclass|]. intros ci.
  apply (within_bind 0 0 0 1 1 1); [apply Hclass|]. intros co.
  destruct (negb _); [eapply within_weaken; [apply within_raise|lia..]|].
  apply (within_bind 0 0 0 1 1 1); [apply within_print_if|]. intros _.
  destruct ci; simpl;
    (eapply within_weaken;
     [ first [ apply (within_invoker AUDIO i o v)
             | apply (within_invoker IMAGE i o v)
             | apply (within_invoker VIDEO i o v)
             | apply (within_invoker DOCUMENT i o v) ]
     | simpl; lia.. ]).
Qed.

End Within.

(** ** Validation comes first *)

(** X11.  [convert_file] changes the world (looks up a tool, prints, runs or
    renames anything) exactly when the input exists and both paths classify
    to one and the same category; in every other case it raises and acts as
    if it had never been called. *)
Theorem convert_file_acts_only_when_validated
    (on_path : string -> bool) (spawn : list string -> gmap Path Entry -> Spawn)
    (i o : Path) (v : bool) (w : World) :
  (snd (convert_file on_path spawn i o v w) <> w <->
   is_Some (fs w !! i) /\
   exists c, get_category i = inr c /\ get_category o = inr c) /\
  (snd (convert_file on_path spawn i o v w) = w ->
   exists e, fst (convert_file on_path spawn i o v w) = inl e).
Proof.
  assert (Hvalid : forall c,
    is_Some (fs w !! i) -> get_category i = inr c -> get_category o = inr c ->
    snd (convert_file on_path spawn i o v w) <> w).
  { intros c H Hi Ho Heq.
    pose proof (invoker_probes on_path spawn c i o v (announced v c i o w)) as Hp.
    rewrite <- (convert_file_routes on_path spawn i o v w c H Hi Ho), Heq in Hp.
    assert (Ha : probes (trace (announced v c i o w)) = probes (trace w)).
    { destruct v; [|reflexivity]. simpl. rewrite probes_app. simpl.
      apply app_nil_r. }
    rewrite Ha in Hp. apply (f_equal length) in Hp.
    rewrite length_app in Hp. simpl in Hp. lia. }
  assert (Hcases :
    (is_Some (fs w !! i) /\
     exists c, get_category i = inr c /\ get_category o = inr c) \/
    (exists e, convert_file on_path spawn i o v w = (inl e, w)) /\
    ~ (is_Some (fs w !! i) /\
       exists c, get_category i = inr c /\ get_category o = inr c)).
  { destruct (fs w !! i) as [en|] eqn:Ei.
    2:{ right. split;
          [rewrite (convert_file_missing _ _ _ _ _ _ Ei); eauto|].
        intros [[? [=]] _]. }
    assert (H : is_Some (fs w !! i)) by (rewrite Ei; eauto).
    destruct (get_category i) as [ei|ci] eqn:Hi.
    { right. destruct (get_category_raises_ValueError i ei Hi) as [m ->].
      split; [rewrite (convert_file_bad_input _ _ _ _ _ _ _ H Hi); eauto|].
      intros [_ [c [[=] _]]]. }
    destruct (get_category o) as [eo|co] eqn:Ho.
    { right. destruct (get_category_raises_ValueError o eo Ho) as [m ->].
      split; [rewrite (convert_file_bad_output _ _ _ _ _ _ _ _ H Hi Ho); eauto|].
      intros [_ [c [_ [=]]]]. }
    destruct (decide (ci = co)) as [<-|Hne]; [left; eauto|].
    right. split;
      [rewrite (convert_file_mismatch _ _ _ _ _ _ _ _ H Hi Ho Hne); eauto|].
    intros [_ [c [[= ->] [= ->]]]]. congruence. }
  split; [split|].
  - intros Hchg. destruct Hcases as [Hv|[[e He] _]]; [exact Hv|].
    rewrite He in Hchg. now contradiction Hchg.
  - intros [H [c [Hi Ho]]]. now apply (Hvalid c).
  - intros Hsame. destruct Hcases as [[H [c [Hi Ho]]]|[[e He] _]].
    + now contradiction (Hvalid c H Hi Ho).
    + exists e. now rewrite He.
Qed.

(** ** The verbose flag *)

Lemma unprinted_app t1 t2 : unprinted (t1 ++ t2) = unprinted t1 ++ unprinted t2.
Proof. unfold unprinted. apply List.filter_app. Qed.

Lemma runs_unprinted t : runs (unprinted t) = runs t.
Proof. induction t as [|[] t IH]; simpl; now rewrite ?IH. Qed.

Lemma probes_unprinted t : probes (unprinted t) = probes t.
Proof. induction t as [|[] t IH]; simpl; now rewrite ?IH. Qed.

Lemma renames_unprinted t : renames (unprinted t) = renames t.
Proof. induction t as [|[] t IH]; simpl; now rewrite ?IH. Qed.

Lemma same_kind_refl {A} (r : exn + A) : same_kind r r.
Proof. destruct r; reflexivity. Qed.

Section Alike.

Lemma alike_pure {A} (r1 r2 : exn + A) :
  same_kind r1 r2 -> alike (lift r1) (lift r2).
Proof. intros H w1 w2 Hw. split; [exact H | exact Hw]. Qed.

Lemma alike_ret {A} (a : A) : alike (ret a) (ret a).
Proof. apply (alike_pure (inr a) (inr a)). reflexivity. Qed.

Lemma alike_raise {A} (e1 e2 : exn) :
  class_name e1 = class_name e2 -> alike (@raise A e1) (@raise A e2).
Proof. intros H. now apply (alike_pure (inl e1) (inl e2)). Qed.

Lemma alike_bind {A B} (m1 m2 : M A) (k1 k2 : A -> M B) :
  alike m1 m2 -> (forall a, alike (k1 a) (k2 a)) ->
  alike (bind m1 k1) (bind m2 k2).
Proof.
  intros Hm Hk w1 w2 Hw. unfold bind.
  destruct (Hm w1 w2 Hw) as [Hr Hw'].
  destruct (m1 w1) as [[e1|a1] w1'], (m2 w2) as [[e2|a2] w2']; simpl in *;
    try contradiction.
  - split; [exact Hr | exact Hw'].
  - subst a2. now apply Hk.
Qed.

Lemma alike_try_except {A} (m1 m2 : M A) (h1 h2 : exn -> option (M A)) :
  alike m1 m2 ->
  (forall e1 e2, class_name e1 = class_name e2 ->
     match h1 e1, h2 e2 with
     | Some k1, Some k2 => alike k1 k2
     | None, None => True
     | _, _ => False
     end) ->
  alike (try_except m1 h1) (try_except m2 h2).
Proof.
  intros Hm Hh w1 w2 Hw. unfold try_except.
  destruct (Hm w1 w2 Hw) as [Hr Hw'].
  destruct (m1 w1) as [[e1|a1] w1'], (m2 w2) as [[e2|a2] w2']; simpl in *;
    try contradiction.
  - specialize (Hh e1 e2 Hr).
    destruct (h1 e1) as [k1|], (h2 e2) as [k2|]; try contradiction.
    + now apply Hh.
    + split; [exact Hr | exact Hw'].
  - split; [exact Hr | exact Hw'].
Qed.

Lemma alike_print_if v1 l1 v2 l2 : alike (print_if v1 l1) (print_if v2 l2).
Proof.
  intros w1 w2 [Hf Ht].
  destruct v1, v2; (split; [reflexivity|]); split; simpl; try exact Hf;
    rewrite ?unprinted_app; simpl; rewrite ?app_nil_r; exact Ht.
Qed.

Lemma alike_emit e :
  match e with EvPrint _ => False | _ => True end -> alike (emit e) (emit e).
Proof.
  intros He w1 w2 [Hf Ht]. split; [reflexivity|]. split; [exact Hf|].
  simpl. rewrite !unprinted_app. now rewrite Ht.
Qed.

Lemma alike_exists p : alike (exists_ p) (exists_ p).
Proof.
  intros w1 w2 [Hf Ht]. unfold exists_. simpl. rewrite Hf.
  split; [reflexivity | now split].
Qed.

Lemma alike_rename src dst : alike (rename src dst) (rename src dst).
Proof.
  intros w1 w2 [Hf Ht]. unfold rename. rewrite Hf.
  destruct (fs w2 !! src) as [[c|]|], (fs w2 !! dst) as [[c'|]|]; simpl;
    (split; [reflexivity|]); split; simpl; rewrite ?Hf, ?unprinted_app, ?Ht;
    reflexivity.
Qed.

Variable on_path : string -> bool.
Variable spawn : list string -> gmap Path Entry -> Spawn.

Lemma alike_check_tool_available tool :
  alike (check_tool_available on_path tool) (check_tool_available on_path tool).
Proof.
  unfold check_tool_available.
  apply alike_bind; [now apply alike_emit | intros; apply alike_ret].
Qed.

Lemma alike_subprocess_run cmd :
  alike (subprocess_run spawn cmd) (subprocess_run spawn cmd).
Proof.
  intros w1 w2 [Hf Ht]. unfold subprocess_run. rewrite Hf.
  destruct (spawn cmd (fs w2)); simpl;
    (split; [reflexivity|]); split; simpl; rewrite ?unprinted_app, ?Ht;
    reflexivity.
Qed.

Lemma alike_run_command cmd v1 v2 tool :
  alike (run_command spawn cmd v1 tool) (run_command spawn cmd v2 tool).
Proof.
  unfold run_command.
  apply alike_bind; [apply alike_print_if|]. intros _.
  apply alike_bind.
  - apply alike_try_except; [apply alike_subprocess_run|].
    intros e1 e2 Hc. destruct e1, e2; try discriminate Hc; try exact I.
    now apply alike_raise.
  - intros r. destruct (negb _); [now apply alike_raise | apply alike_ret].
Qed.

Lemma alike_invoker c i o v1 v2 :
  alike (invoker_of on_path spawn c i o v1) (invoker_of on_path spawn c i o v2).
Proof.
  assert (Hoffice : alike (convert_office on_path spawn i o v1)
                          (convert_office on_path spawn i o v2)).
  { unfold convert_office.
    apply alike_bind; [apply alike_check_tool_available|]. intros a.
    destruct (negb a); [now apply alike_raise|].
    apply alike_bind; [apply alike_run_command|]. intros _.
    apply alike_bind; [apply alike_exists|]. intros b.
    destruct (negb b); [now apply alike_raise|].
    destruct (negb _); [|apply alike_ret].
    apply alike_bind; [apply alike_print_if|]. intros _.
    apply alike_rename. }
  destruct c; simpl; try exact Hoffice.
  - unfold convert_audio.
    apply alike_bind; [apply alike_check_tool_available|]. intros a.
    destruct (negb a); [now apply alike_raise|].
    apply alike_bind; [|intros; apply alike_run_command].
    repeat (destruct (String.eqb _ _); [apply alike_ret|]).
    now apply alike_raise.
  - unfold convert_image.
    apply alike_bind; [apply alike_check_tool_available|]. intros a.
    destruct (negb a); [now apply alike_raise|].
    apply alike_run_command.
  - unfold convert_video.
    apply alike_bind; [apply alike_check_tool_available|]. intros a.
    destruct (negb a); [now apply alike_raise|].
    apply alike_bind; [|intros; apply alike_run_command].
    repeat (destruct (String.eqb _ _); [apply alike_ret|]).
    now apply alike_raise.
Qed.

Lemma alike_convert_file i o v1 v2 :
  alike (convert_file on_path spawn i o v1) (convert_file on_path spawn i o v2).
Proof.
  unfold convert_file.
  apply alike_bind; [apply alike_exists|]. intros found.
  destruct (negb found); [now apply alike_raise|].
  assert (Hclass : forall q p, alike (classify q p) (classify q p)).
  { intros q p. unfold classify.
    apply alike_try_except; [apply alike_pure, same_kind_refl|].
    intros e1 e2 Hc. destruct e1, e2; try discriminate Hc; try exact I.
    now apply alike_raise. }
  apply alike_bind; [apply Hclass|]. intros ci.
  apply alike_bind; [apply Hclass|]. intros co.
  destruct (negb _); [now apply alike_raise|].
  apply alike_bind; [apply alike_print_if|]. intros _.
  destruct ci; simpl;
    first [ apply (alike_invoker AUDIO i o v1 v2)
          | apply (alike_invoker IMAGE i o v1 v2)
          | apply (alike_invoker VIDEO i o v1 v2)
          | apply (alike_invoker DOCUMENT i o v1 v2) ].
Qed.

(** X12.  The [verbose] flag changes what is printed and how an error
    message is worded, and nothing else: with and without it,
    [convert_file] returns normally or raises an exception of the same
    class, leaves the same file system, and performs the same lookups,
    process starts and renames. *)
Theorem convert_file_verbose_only_prints (i o : Path) (w : World) :
  same_kind (fst (convert_file on_path spawn i o true w))
            (fst (convert_file on_path spawn i o false w)) /\
  fs (snd (convert_file on_path spawn i o true w)) =
    fs (snd (convert_file on_path spawn i o false w)) /\
  probes (trace (snd (convert_file on_path spawn i o true w))) =
    probes (trace (snd (convert_file on_path spawn i o false w))) /\
  runs (trace (snd (convert_file on_path spawn i o true w))) =
    runs (trace (snd (convert_file on_path spawn i o false w))) /\
  renames (trace (snd (convert_file on_path spawn i o true w))) =
    renames (trace (snd (convert_file on_path spawn i o false w))).
Proof.
  destruct (alike_convert_file i o true false w w (conj eq_refl eq_refl))
    as [Hk [Hf Ht]].
  split; [exact Hk|]. split; [exact Hf|].
  rewrite <- (probes_unprinted (trace (snd (convert_file _ _ i o true w)))),
          <- (runs_unprinted (trace (snd (convert_file _ _ i o true w)))),
          <- (renames_unprinted (trace (snd (convert_file _ _ i o true w)))),
          Ht.
  now rewrite probes_unprinted, runs_unprinted, renames_unprinted.
Qed.

End Alike.

(** ** Names, stems and suffixes *)

Lemma take_drop i n : Str.take i n +:+ Str.drop i n = n.
Proof.
  revert n. induction i as [|i IH]; intros [|c r]; try reflexivity.
  simpl. rewrite str_app_cons. now rewrite IH.
Qed.

Lemma drop_length i n :
  String.length (Str.drop i n) = (String.length n - i)%nat.
Proof.
  revert n. induction i as [|i IH]; intros [|c r]; simpl;
    try reflexivity; try lia.
  apply IH.
Qed.

Lemma stem_suffix p : PathLib.stem p +:+ PathLib.suffix p = PathLib.name p.
Proof.
  unfold PathLib.stem, PathLib.suffix.
  destruct (PathLib.suffix_at (PathLib.name p)) as [i|].
  - apply take_drop.
  - apply str_app_nil_r.
Qed.

(** A suffix, when there is one, has at least one character after its dot. *)
Lemma suffix_not_bare p : PathLib.suffix p <> "" -> office_target_ext p <> "".
Proof.
  unfold office_target_ext, PathLib.suffix, PathLib.suffix_at.
  destruct (Str.rfind_dot (PathLib.name p)) as [i|] eqn:E; [|congruence].
  destruct (_ && _) eqn:Eb; [|congruence]. intros _.
  apply andb_true_iff in Eb as [_ Hlt]. apply Nat.ltb_lt in Hlt.
  destruct (rfind_dot_drop _ _ E) as [r [Hr Hn]].
  pose proof (drop_length i (PathLib.name p)) as Hlen.
  rewrite Hr in *. simpl in Hlen |- *.
  rewrite (rfind_dot_none_lstrip r Hn).
  destruct r; [simpl in Hlen; lia | discriminate].
Qed.

Lemma no_slash_app a b : no_slash (a +:+ b) = no_slash a && no_slash b.
Proof.
  induction a as [|c a IH]; [reflexivity|].
  rewrite str_app_cons. simpl. now rewrite IH, andb_assoc.
Qed.

Lemma no_slash_stem p : no_slash (PathLib.name p) = true -> no_slash (PathLib.stem p) = true.
Proof.
  rewrite <- (stem_suffix p), no_slash_app. intros H.
  now apply andb_true_iff in H as [H _].
Qed.

Lemma no_slash_suffix p :
  no_slash (PathLib.name p) = true -> no_slash (PathLib.suffix p) = true.
Proof.
  rewrite <- (stem_suffix p), no_slash_app. intros H.
  now apply andb_true_iff in H as [_ H].
Qed.

Lemma no_slash_split s : no_slash s = true -> Str.split_slash s = [s].
Proof.
  induction s as [|c r IH]; [reflexivity|]. simpl.
  destruct (Ascii.eqb c "/"); [discriminate|]. simpl. intros H.
  now rewrite (IH H).
Qed.

Lemma no_slash_root s : no_slash s = true -> PathLib.root_of s = "".
Proof.
  destruct s as [|c r]; [reflexivity|]. simpl.
  destruct (Ascii.eqb c "/") eqn:E; [discriminate|]. intros _.
  destruct c as [[] [] [] [] [] [] [] []]; try reflexivity. discriminate E.
Qed.

Lemma keep_comp_long s : (2 <= String.length s)%nat -> PathLib.keep_comp s = true.
Proof.
  destruct s as [|a [|b r]]; simpl; try lia. intros _.
  unfold PathLib.keep_comp.
  change (String.eqb (String a (String b r)) "") with false.
  change (String.eqb (String a (String b r)) ".")
    with (if Ascii.eqb a "." then String.eqb (String b r) "" else false).
  change (String.eqb (String b r) "") with false.
  now destruct (Ascii.eqb a ".").
Qed.

(** [Path(s)] for a string that is a single component. *)
Lemma of_str_single s :
  no_slash s = true -> (2 <= String.length s)%nat ->
  PathLib.of_str s = mkPath "" [s].
Proof.
  intros Hs Hlen. unfold PathLib.of_str.
  rewrite (no_slash_root s Hs), (no_slash_split s Hs).
  cbn [List.filter]. now rewrite (keep_comp_long s Hlen).
Qed.

Lemma split_slash_no_slash s : Forall (fun c => no_slash c = true) (Str.split_slash s).
Proof.
  induction s as [|c r IH]; simpl; [repeat constructor|].
  destruct (Ascii.eqb c "/") eqn:E; [constructor; [reflexivity | exact IH]|].
  destruct (Str.split_slash r) as [|h t]; [repeat constructor; simpl; now rewrite E|].
  inversion IH; subst. constructor; [simpl; now rewrite E | assumption].
Qed.

(** Every path parsed from a string has a slash-free name. *)
Lemma of_str_name_no_slash s : no_slash (PathLib.name (PathLib.of_str s)) = true.
Proof.
  unfold PathLib.name, PathLib.of_str. simpl.
  pose proof (split_slash_no_slash s) as H.
  assert (Hf : Forall (fun c => no_slash c = true)
                 (List.filter PathLib.keep_comp (Str.split_slash s))).
  { apply Forall_forall. intros x Hx.
    apply list_elem_of_In, filter_In in Hx as [Hx _].
    rewrite Forall_forall in H. now apply H, list_elem_of_In. }
  destruct (last _) as [x|] eqn:E; [|reflexivity]. simpl.
  rewrite Forall_forall in Hf. apply Hf.
  apply last_Some in E as [l' ->]. set_solver.
Qed.

Lemma comps_snoc_name p :
  comps p <> [] -> comps p = removelast (comps p) ++ [PathLib.name p].
Proof.
  unfold PathLib.name. intros H.
  destruct (last (comps p)) as [x|] eqn:E.
  - apply last_Some in E as [l' E]. rewrite E.
    now rewrite removelast_last.
  - apply last_None in E. contradiction.
Qed.

Lemma suffix_name_nonempty p : PathLib.suffix p <> "" -> comps p <> [].
Proof.
  intros H Hc. apply H. unfold PathLib.suffix, PathLib.name.
  now rewrite Hc.
Qed.

Section OfficeNames.

Variable on_path : string -> bool.
Variable spawn : list string -> gmap Path Entry -> Spawn.

(** X13.  For paths with slash-free names (as every parsed path has) and an
    output path with a suffix, the artifact [convert_office] expects is the
    requested output itself exactly when input and output have the same
    stem; so a rename is attempted exactly when the stems differ. *)
Theorem office_expected_is_output_iff_same_stem (i o : Path) :
  no_slash (PathLib.name i) = true ->
  no_slash (PathLib.name o) = true ->
  PathLib.suffix o <> "" ->
  (PathLib.truediv (PathLib.parent o)
     (PathLib.stem i +:+ "." +:+ Str.lstrip_dot (PathLib.suffix o)) = o
   <-> PathLib.stem i = PathLib.stem o).
Proof.
  intros Hi Ho Hs.
  pose proof (suffix_not_bare o Hs) as HT. unfold office_target_ext in HT.
  destruct (office_target_ext_suffix o) as [[He _]|Hsuf]; [contradiction|].
  unfold office_target_ext in Hsuf.
  set (T := Str.lstrip_dot (PathLib.suffix o)) in *.
  assert (HTs : no_slash T = true).
  { pose proof (no_slash_suffix o Ho) as H. rewrite Hsuf in H.
    change ("." +:+ T) with (String "." T) in H. simpl in H. exact H. }
  assert (Hsingle : PathLib.of_str (PathLib.stem i +:+ "." +:+ T) =
                    mkPath "" [PathLib.stem i +:+ "." +:+ T]).
  { apply of_str_single.
    - rewrite !no_slash_app, (no_slash_stem i Hi), HTs. reflexivity.
    - rewrite !str_app_length. destruct T; [congruence|]. simpl. lia. }
  pose proof (suffix_name_nonempty o Hs) as Hne.
  assert (Hexp : PathLib.truediv (PathLib.parent o) (PathLib.stem i +:+ "." +:+ T) =
                 mkPath (root o)
                   (removelast (comps o) ++ [PathLib.stem i +:+ "." +:+ T])).
  { unfold PathLib.truediv. rewrite Hsingle. simpl.
    unfold PathLib.parent. destruct (comps o); [contradiction | reflexivity]. }
  rewrite Hexp.
  assert (Ho' : o = mkPath (root o) (removelast (comps o) ++ [PathLib.name o])).
  { rewrite <- (comps_snoc_name o Hne). now destruct o. }
  assert (Hname : PathLib.name o = PathLib.stem o +:+ "." +:+ T).
  { now rewrite <- (stem_suffix o), Hsuf. }
  split.
  - intros Heq. rewrite Ho' in Heq at 3. injection Heq as Heq.
    apply app_inv_head in Heq. injection Heq as Heq.
    rewrite Hname in Heq. now apply str_app_inv_tail in Heq.
  - intros Heq. rewrite Ho' at 3. now rewrite Hname, Heq.
Qed.

Lemma office_expected_is_output_iff_same_stem_witness :
  (PathLib.truediv (PathLib.parent Demo.final_odt)
     (PathLib.stem Demo.report_docx +:+ "." +:+
      Str.lstrip_dot (PathLib.suffix Demo.final_odt)) = Demo.final_odt
   <-> PathLib.stem Demo.report_docx = PathLib.stem Demo.final_odt).
Proof.
  apply (office_expected_is_output_iff_same_stem Demo.report_docx Demo.final_odt).
  - vm_compute. reflexivity.
  - vm_compute. reflexivity.
  - vm_compute. discriminate.
Defined.


End OfficeNames.


(** ** Office conversions that succeed *)

Section OfficeSuccess.

Variable on_path : string -> bool.
Variable spawn : list string -> gmap Path Entry -> Spawn.


End OfficeSuccess.



(** X16.  Normalising an extension twice is the same as normalising it
    once, for every string and not only for the keys of the table. *)
Theorem normalize_extension_idempotent_everywhere (ext : string) :
  normalize_extension (normalize_extension ext) = normalize_extension ext.
Proof.
  rewrite (normalize_extension_unfold (normalize_extension ext)).
  rewrite (lstrip_dot_fixed _ (normalize_extension_no_leading ext)).
  rewrite normalize_extension_lower.
  rewrite alias_of_unfold.
  destruct (String.eqb "jpeg" (normalize_extension ext)) eqn:E; [|reflexivity].
  apply String.eqb_eq in E.
  rewrite normalize_extension_unfold, alias_of_unfold in E.
  destruct (String.eqb "jpeg" (Str.lower (Str.lstrip_dot ext))) eqn:E2;
    [discriminate E|].
  apply String.eqb_neq in E2. congruence.
Qed.

(** A directory at the requested output path: the rename is refused and the
    converted file stays under the tool's name. *)
Example demo_office_output_is_directory :
  let '(r, w) := convert_office Demo.all_tools Demo.soffice_like
                   Demo.report_docx Demo.out_dir false Demo.w_dir in
  r = inl (OSError "[Errno 21] Is a directory: '/work/report.odt' -> '/work/out.odt'") /\
  fs w !! Demo.report_odt = Some (File "converted:/work/report.docx") /\
  fs w !! Demo.out_dir = Some Dir /\
  renames (trace w) = [].
Proof. vm_compute. repeat split; reflexivity. Qed.


Lemma convert_file_acts_only_when_validated_witness :
  snd (convert_file Demo.all_tools Demo.soffice_like
         Demo.report_docx Demo.final_odt false Demo.w0) <> Demo.w0 /\
  exists e, fst (convert_file Demo.all_tools Demo.soffice_like
                   Demo.nowhere_mp3 Demo.nowhere_wav false Demo.w_empty) = inl e.
Proof.
  split.
  - apply (proj1 (convert_file_acts_only_when_validated
                    Demo.all_tools Demo.soffice_like
                    Demo.report_docx Demo.final_odt false Demo.w0)).
    split; [vm_compute; eauto|].
    exists DOCUMENT. split; vm_compute; reflexivity.
  - apply (proj2 (convert_file_acts_only_when_validated
                    Demo.all_tools Demo.soffice_like
                    Demo.nowhere_mp3 Demo.nowhere_wav false Demo.w_empty)).
    vm_compute. reflexivity.
Defined.
